(** * Syndra: predicates over graph-rewriting rules and their lowering to Z3

    A shallow embedding of the two predicate modules of the repository,

    - [l_to_z3/atomic_predicate.py]: the atomic predicates of L, each of
      which owns a solver and can be checked on its own, and
    - [new_engine/predicate.py]: the predicate combinators, compiled by
      [_assert] to one Z3 formula,

    together with the properties of the specification that concern them.

    Python objects are attribute dictionaries, exceptions are an explicit
    error type, methods that mutate [self] or global counters are written
    in a state-and-error monad, and the Z3 Python API is modelled as far as
    the two modules call it. *)

From stdpp Require Import base option list strings pretty gmap.
From Stdlib Require Import ZArith.

#[local] Set Warnings "-register-all".

Open Scope string_scope.
Open Scope Z_scope.

(** ** Python exceptions and the state-and-error monad *)

Module Py.

Inductive exn : Type :=
| ValueError (msg : string)
| TypeError (msg : string)
| AttributeError (attr : string)
| IndexError (msg : string)
| AssertionError
| NotImplementedError (msg : string)
| Z3Exception (msg : string).

Inductive result (A : Type) : Type :=
| Ok (a : A)
| Raise (e : exn).
Arguments Ok {A} a.
Arguments Raise {A} e.

Definition rbind {A B} (r : result A) (k : A -> result B) : result B :=
  match r with
  | Ok a => k a
  | Raise e => Raise e
  end.

(** A method call runs against a mutable state [S] (the fields of [self],
    or the interpreter's globals).  What it wrote before raising stays
    written, so the state is returned in both cases. *)
Definition M (S A : Type) : Type := S -> result A * S.

Definition throw {S A} (e : exn) : M S A := fun s => (Raise e, s).
Definition lift {S A} (r : result A) : M S A := fun s => (r, s).

Global Instance result_ret : MRet result := fun A a => Ok a.
Global Instance result_bind : MBind result := fun A B k r => rbind r k.
Global Instance result_fmap : FMap result := fun A B f r =>
  match r with
  | Ok a => Ok (f a)
  | Raise e => Raise e
  end.
Global Instance M_ret {S} : MRet (M S) := fun A a s => (Ok a, s).
Global Instance M_bind {S} : MBind (M S) := fun A B k m s =>
  match m s with
  | (Ok a, s') => k a s'
  | (Raise e, s') => (Raise e, s')
  end.

End Py.

Import Py.

(** ** The Z3 Python API, as far as the two modules use it *)

Module Z3.

Inductive sort : Type :=
| IntSort
| BoolSort
| Datatype (name : string).

Global Instance sort_eq_dec : EqDecision sort.
Proof. solve_decision. Defined.

(** Z3 expressions.  [FreshConst] is a constant made by a generator
    with a numeric tag, [Const] one declared by name. *)
Inductive expr : Type :=
| IntVal (n : Z)
| BoolVal (b : bool)
| Const (name : string) (s : sort)
| FreshConst (tag : nat) (s : sort)
| App (f : string) (range : sort) (args : list expr)
| And (args : list expr)
| Or (args : list expr)
| Not (a : expr)
| Exists (bound : list expr) (body : expr).

Record FuncDecl : Type := Function {
  fname : string;
  domain : list sort;
  range_of : sort
}.

(** [e.sort()] *)
Definition sort_of (e : expr) : sort :=
  match e with
  | IntVal _ => IntSort
  | BoolVal _ => BoolSort
  | Const _ s => s
  | FreshConst _ s => s
  | App _ r _ => r
  | And _ | Or _ | Not _ | Exists _ _ => BoolSort
  end.

(** [e.children()] *)
Definition children (e : expr) : list expr :=
  match e with
  | IntVal _ | BoolVal _ | Const _ _ | FreshConst _ _ => []
  | App _ _ args => args
  | And args | Or args => args
  | Not a => [a]
  | Exists _ body => [body]
  end.

(** [e.as_long()], which only integer numerals have. *)
Definition as_long (e : expr) : result Z :=
  match e with
  | IntVal n => Ok n
  | _ => Raise (AttributeError "as_long")
  end.

(** [f(args)] for a declared function [f]. *)
Definition apply (f : FuncDecl) (args : list expr) : result expr :=
  if decide (map sort_of args = domain f)
  then Ok (App (fname f) (range_of f) args)
  else Raise (Z3Exception "sort mismatch").

Inductive CheckSatResult : Type := sat | unsat | unknown.

Global Instance CheckSatResult_eq_dec : EqDecision CheckSatResult.
Proof. solve_decision. Defined.

(** A model read back from the solver: declarations and their values. *)
Definition ModelRef : Type := list (expr * expr).

(** The decision procedure itself is not part of the repository.  It is
    a parameter: what [check()] answers on a list of assertions, and the
    model its model-reading facility has for them, if any. *)
Record Oracle : Type := {
  decide_sat : list expr -> CheckSatResult;
  read_model : list expr -> option ModelRef
}.

(** A solving session, with the counters an instrumented fake oracle
    would keep. *)
Record Solver : Type := mkSolver {
  assertions : list expr;
  checks : nat;
  last_check : option CheckSatResult
}.

(** [Solver()] *)
Definition new_solver : Solver :=
  {| assertions := []; checks := 0; last_check := None |}.

(** [s.add(f)]; a model read earlier is no longer current. *)
Definition solver_add (s : Solver) (f : expr) : Solver :=
  {| assertions := assertions s ++ [f];
     checks := checks s;
     last_check := None |}.

(** [s.check()] *)
Definition solver_check (O : Oracle) (s : Solver) : CheckSatResult * Solver :=
  let r := decide_sat O (assertions s) in
  (r, {| assertions := assertions s;
         checks := S (checks s);
         last_check := Some r |}).

Definition model_not_available : exn :=
  Z3Exception "model is not available".

(** [s.model()]: the oracle's model for the last check, or
    Z3Exception when it has none. *)
Definition solver_model (O : Oracle) (s : Solver) : result ModelRef :=
  match last_check s with
  | None => Raise model_not_available
  | Some _ =>
      match read_model O (assertions s) with
      | Some m => Ok m
      | None => Raise model_not_available
      end
  end.

(** The value of a ground propositional formula; [None] when the formula
    mentions anything but truth values and connectives. *)
Fixpoint ground_value (e : expr) : option bool :=
  match e with
  | BoolVal b => Some b
  | And args =>
      (fix conj (l : list expr) : option bool :=
         match l with
         | [] => Some true
         | a :: l' =>
             match ground_value a, conj l' with
             | Some x, Some y => Some (x && y)
             | _, _ => None
             end
         end) args
  | Or args =>
      (fix disj (l : list expr) : option bool :=
         match l with
         | [] => Some false
         | a :: l' =>
             match ground_value a, disj l' with
             | Some x, Some y => Some (x || y)
             | _, _ => None
             end
         end) args
  | Not a => negb <$> ground_value a
  | _ => None
  end.

(** What the properties below ask of the decision procedure: it sees
    through truth values and connectives.  Asserting a formula that is
    true as it stands changes no answer, the empty session is
    satisfiable, and a session holding a formula that is false as it
    stands is unsatisfiable. *)
Record Propositional (O : Oracle) : Prop := {
  decide_nil : decide_sat O [] = sat;
  decide_true : forall fs f,
    ground_value f = Some true -> decide_sat O (fs ++ [f]) = decide_sat O fs;
  decide_false : forall fs f,
    f ∈ fs -> ground_value f = Some false -> decide_sat O fs = unsat
}.

(** The part of Z3's contract on models that holds for every result:
    after unsat there is none. *)
Definition no_model_after_unsat (O : Oracle) : Prop :=
  forall fs, decide_sat O fs = unsat -> read_model O fs = None.

(** A small decision procedure to run the definitions on: ground
    sessions are decided, anything else is unknown; it keeps a model
    for sat, and a candidate model for unknown, as Z3 may. *)
Definition ground_oracle : Oracle :=
  {| decide_sat := fun fs =>
       if existsb (fun f => bool_decide (ground_value f = Some false)) fs then unsat
       else if forallb (fun f => bool_decide (ground_value f = Some true)) fs then sat
       else unknown;
     read_model := fun fs =>
       if existsb (fun f => bool_decide (ground_value f = Some false)) fs then None
       else Some [] |}.

End Z3.

(** ** l_to_z3/atomic_predicate.py *)

Module L_to_z3.

Import Z3.

(** *** What the module imports from model.py *)

(** Modelled from the spec: model.py is not among the sources.  Its
    graphs are the relations has(id), parents(id,id) and links(id,id)
    over identifiers, its action is the relation has(effect); each
    builds the atomic formula for its arguments.  What [initialize] does
    to a solver is left open. *)
Record Graph : Type := {
  has : expr -> expr;
  parents : expr -> expr -> expr;
  links : expr -> expr -> expr
}.

Record Action : Type := { action_has : expr -> expr }.

Record Model : Type := {
  initialize : Solver -> result Solver;
  pregraph : Graph;
  postgraph : Graph;
  action : Action
}.

Definition Identifier : sort := Datatype "Identifier".
Definition AtomicAction : sort := Datatype "AtomicAction".

(** Modelled from the spec: the effect descriptors parent_action(id,id),
    link_action(id,id) and unlink_action(id,id) of model.py. *)
Definition parent_action (a b : expr) : expr :=
  App "parent_action" AtomicAction [a; b].
Definition link_action (a b : expr) : expr :=
  App "link_action" AtomicAction [a; b].
Definition unlink_action (a b : expr) : expr :=
  App "unlink_action" AtomicAction [a; b].

(** Modelled from the spec: the label accessor of Identifier. *)
Definition Identifier_label : FuncDecl :=
  Function "label" [Identifier] IntSort.

(** *** Values and objects *)

(** [Variable = Datatype('Variable')] with the one constructor
    [variable] and its accessor [get_varname].  ([Variable] is a
    reserved word here, hence the underscore.) *)
Definition Variable_ : sort := Datatype "Variable".
Definition variable (tag : Z) : expr := App "variable" Variable_ [IntVal tag].
Definition get_varname : FuncDecl := Function "get_varname" [Variable_] IntSort.

Inductive val : Type :=
| VNone
| VBool (b : bool)
| VInt (n : Z)
| VStr (s : string)
| VExpr (e : expr)
| VFunc (f : FuncDecl)
| VSolver (s : Solver)
| VStatus (c : CheckSatResult)
| VModel (m : Model).

Inductive cls : Type :=
| AtomicPredicate
| Top | Bottom | Equal | Labeled
| PreParent | PostParent | DoParent
| PreLink | PostLink | DoLink | DoUnlink
| PreHas | PostHas
| Add | Rem.

Global Instance cls_eq_dec : EqDecision cls.
Proof. solve_decision. Defined.

(** An instance: its class and its attribute dictionary. *)
Record object : Type := mkObject {
  class : cls;
  dict : gmap string val
}.

Definition setattr (name : string) (v : val) (self : object) : object :=
  {| class := class self; dict := <[name := v]> (dict self) |}.

Definition getattr (name : string) (self : object) : result val :=
  match dict self !! name with
  | Some v => Ok v
  | None => Raise (AttributeError name)
  end.

(** Python truth value, for [if not self._asserted_yet]. *)
Definition truthy (v : val) : bool :=
  match v with
  | VNone => false
  | VBool b => b
  | VInt n => negb (n =? 0)
  | VStr s => negb (String.eqb s "")
  | _ => true
  end.

(** [thing.sort()] *)
Definition py_sort (thing : val) : result sort :=
  match thing with
  | VExpr e => Ok (sort_of e)
  | _ => Raise (AttributeError "sort")
  end.

Definition py_assert (b : bool) : result unit :=
  if b then Ok tt else Raise AssertionError.

(** [f(item)] for a z3 function and a Python value. *)
Definition call (f : FuncDecl) (item : val) : result expr :=
  match item with
  | VExpr e => apply f [e]
  | VInt n => apply f [IntVal n]
  | VBool b => apply f [BoolVal b]
  | _ => Raise (Z3Exception "cannot coerce argument")
  end.

Definition index0 (l : list expr) : result expr :=
  match l with
  | e :: _ => Ok e
  | [] => Raise (IndexError "list index out of range")
  end.

(** [z3_accessor]: [func(item).children()[0].children()[0].as_long()] *)
Definition z3_accessor (func : FuncDecl) (item : val) : result Z :=
  e ← call func item;
  c ← index0 (children e);
  n ← index0 (children c);
  as_long n.

Definition ensure_variable_msg : string :=
  "Arguments must be z3 instances of Variable.".

(** [ensure_variable]: the assertion on the sort, with AttributeError
    and AssertionError turned into ValueError. *)
Definition ensure_variable (thing : val) : result unit :=
  match (s ← py_sort thing; py_assert (bool_decide (s = Variable_))) with
  | Ok _ => Ok tt
  | Raise (AttributeError _) | Raise AssertionError =>
      Raise (ValueError ensure_variable_msg)
  | Raise e => Raise e
  end.

(** *** Constructors *)

(** [AtomicPredicate.__init__(self, graphactionpair)] *)
Definition AtomicPredicate_init (c : cls) (args : list val) : result object :=
  match args with
  | [graphactionpair] =>
      let self := {| class := c; dict := ∅ |} in
      let self := setattr "solver" (VSolver new_solver) self in
      let self := setattr "graphactionpair" graphactionpair self in
      let self := setattr "interpretation"
                    (VFunc (Function "interpretation" [Variable_] Identifier)) self in
      let self := setattr "_asserted_yet" (VBool false) self in
      let self := setattr "_status" VNone self in
      (* self.graphactionpair.initialize(self.solver) *)
      match graphactionpair with
      | VModel m =>
          s ← initialize m new_solver;
          Ok (setattr "solver" (VSolver s) self)
      | _ => Raise (AttributeError "initialize")
      end
  | _ => Raise (TypeError "__init__() takes exactly 2 arguments")
  end.

(** [__init__(self, x, y, *args)] of Equal, PreParent, PostParent,
    DoParent, PreLink, PostLink, DoLink and DoUnlink. *)
Definition binary_init (c : cls) (args : list val) : result object :=
  match args with
  | x :: y :: args =>
      self ← AtomicPredicate_init c args;
      ensure_variable x ;;
      ensure_variable y ;;
      Ok (setattr "y" y (setattr "x" x self))
  | _ => Raise (TypeError "__init__() takes at least 3 arguments")
  end.

(** [Labeled.__init__(self, x, label, *args)] *)
Definition Labeled_init (args : list val) : result object :=
  match args with
  | x :: label :: args =>
      self ← AtomicPredicate_init Labeled args;
      ensure_variable x ;;
      Ok (setattr "x" x (setattr "label" label self))
  | _ => Raise (TypeError "__init__() takes at least 3 arguments")
  end.

(** [__init__(self, x, *args)] of PreHas and PostHas. *)
Definition unary_init (c : cls) (args : list val) : result object :=
  match args with
  | x :: args =>
      self ← AtomicPredicate_init c args;
      ensure_variable x ;;
      Ok (setattr "x" x self)
  | _ => Raise (TypeError "__init__() takes at least 2 arguments")
  end.

(** Instantiating class [c] on positional arguments: the constructor
    the class has or inherits. *)
Definition new (c : cls) (args : list val) : result object :=
  match c with
  | AtomicPredicate | Top | Bottom | Add | Rem => AtomicPredicate_init c args
  | Equal | PreParent | PostParent | DoParent
  | PreLink | PostLink | DoLink | DoUnlink => binary_init c args
  | Labeled => Labeled_init args
  | PreHas | PostHas => unary_init c args
  end.

(** *** get_predicate *)

(** [self.interpretation(self.<name>)] *)
Definition interpretation_of (name : string) (self : object) : result expr :=
  f ← getattr "interpretation" self;
  x ← getattr name self;
  match f with
  | VFunc f => call f x
  | _ => Raise (TypeError "object is not callable")
  end.

(** [self.model.pregraph], [self.model.postgraph], [self.model.action] *)
Definition model_pregraph (self : object) : result Graph :=
  m ← getattr "model" self;
  match m with
  | VModel m => Ok (pregraph m)
  | _ => Raise (AttributeError "pregraph")
  end.

Definition model_postgraph (self : object) : result Graph :=
  m ← getattr "model" self;
  match m with
  | VModel m => Ok (postgraph m)
  | _ => Raise (AttributeError "postgraph")
  end.

Definition model_action (self : object) : result Action :=
  m ← getattr "model" self;
  match m with
  | VModel m => Ok (action m)
  | _ => Raise (AttributeError "action")
  end.

(** [n == v] for a Python integer [n]; against a z3 expression the
    comparison is z3's and builds an equation. *)
Definition int_eq (n : Z) (v : val) : val :=
  match v with
  | VInt m => VBool (n =? m)
  | VBool b => VBool (n =? (if b then 1 else 0))
  | VExpr e => VExpr (App "=" BoolSort [IntVal n; e])
  | _ => VBool false
  end.

(** A Python boolean or a z3 formula comes back. *)
Definition get_predicate (self : object) : result val :=
  match class self with
  | AtomicPredicate | Add | Rem =>
      Raise (NotImplementedError "Implement get_predicate in subclasses.")
  | Top => Ok (VBool true)
  | Bottom => Ok (VBool false)
  | Equal =>
      x ← getattr "x" self;
      a ← z3_accessor get_varname x;
      y ← getattr "y" self;
      b ← z3_accessor get_varname y;
      Ok (VBool (a =? b))
  | Labeled =>
      i ← interpretation_of "x" self;
      n ← z3_accessor Identifier_label (VExpr i);
      label ← getattr "label" self;
      Ok (int_eq n label)
  | PreParent =>
      g ← model_pregraph self;
      a ← interpretation_of "x" self;
      b ← interpretation_of "y" self;
      Ok (VExpr (parents g a b))
  | PostParent =>
      g ← model_postgraph self;
      a ← interpretation_of "x" self;
      b ← interpretation_of "y" self;
      Ok (VExpr (parents g a b))
  | DoParent =>
      act ← model_action self;
      a ← interpretation_of "x" self;
      b ← interpretation_of "y" self;
      Ok (VExpr (action_has act (parent_action a b)))
  | PreLink =>
      g ← model_pregraph self;
      a ← interpretation_of "x" self;
      b ← interpretation_of "y" self;
      Ok (VExpr (links g a b))
  | PostLink =>
      g ← model_postgraph self;
      a ← interpretation_of "x" self;
      b ← interpretation_of "y" self;
      Ok (VExpr (links g a b))
  | DoLink =>
      act ← model_action self;
      a ← interpretation_of "x" self;
      b ← interpretation_of "y" self;
      Ok (VExpr (action_has act (link_action a b)))
  | DoUnlink =>
      act ← model_action self;
      a ← interpretation_of "x" self;
      b ← interpretation_of "y" self;
      Ok (VExpr (action_has act (unlink_action a b)))
  | PreHas =>
      g ← model_pregraph self;
      a ← interpretation_of "x" self;
      Ok (VExpr (has g a))
  | PostHas =>
      g ← model_postgraph self;
      a ← interpretation_of "x" self;
      Ok (VExpr (has g a))
  end.

(** *** The evaluator methods of AtomicPredicate *)

(** What [solver.add] makes of its argument: a Python boolean becomes
    a truth value, a Boolean expression stays. *)
Definition cast_bool (v : val) : result expr :=
  match v with
  | VBool b => Ok (BoolVal b)
  | VExpr e =>
      if decide (sort_of e = BoolSort) then Ok e
      else Raise (Z3Exception "True, False or Z3 Boolean expression expected")
  | _ => Raise (Z3Exception "True, False or Z3 Boolean expression expected")
  end.

Definition attr (name : string) : M object val :=
  fun self => (getattr name self, self).

Definition attr_solver : M object Solver :=
  v ← attr "solver";
  match v with
  | VSolver s => mret s
  | _ => throw (AttributeError "solver method")
  end.

Definition assign (name : string) (v : val) : M object unit :=
  fun self => (Ok tt, setattr name v self).

Section Evaluator.

Context (O : Oracle).

(** [_assert_over]: the one place a formula is added to the solver. *)
Definition _assert_over : M object unit :=
  s ← attr_solver;
  p ← (fun self => (get_predicate self, self));
  f ← lift (cast_bool p);
  assign "solver" (VSolver (solver_add s f)) ;;
  s ← attr_solver;
  assign "solver" (VSolver (solver_check O s).2) ;;
  assign "_status" (VStatus (solver_check O s).1) ;;
  assign "_asserted_yet" (VBool true).

(** [check_sat]; [DEBUG] is [False], so nothing is printed. *)
Definition check_sat : M object val :=
  a ← attr "_asserted_yet";
  (if negb (truthy a) then _assert_over else mret tt) ;;
  attr "_status".

(** [get_model] *)
Definition get_model : M object ModelRef :=
  a ← attr "_asserted_yet";
  (if negb (truthy a) then _assert_over else mret tt) ;;
  s ← attr_solver;
  lift (solver_model O s).

End Evaluator.

(** *** Vocabulary for the properties *)

Definition is_variable (v : val) : bool :=
  match v with
  | VExpr e => bool_decide (sort_of e = Variable_)
  | _ => false
  end.

(** How many leading arguments a class declares as Variables, and how
    many arguments its own constructor consumes before passing the
    rest to [AtomicPredicate.__init__]. *)
Definition variable_arity (c : cls) : nat :=
  match c with
  | Equal | PreParent | PostParent | DoParent
  | PreLink | PostLink | DoLink | DoUnlink => 2
  | Labeled | PreHas | PostHas => 1
  | _ => 0
  end.

Definition own_arity (c : cls) : nat :=
  match c with
  | Labeled => 2
  | _ => variable_arity c
  end.

Definition variable_args (c : cls) (args : list val) : list val :=
  take (variable_arity c) args.

Definition base_args (c : cls) (args : list val) : list val :=
  drop (own_arity c) args.

(** The leaves that state a relation of a graph or of the action. *)
Definition relational (c : cls) : bool :=
  match c with
  | PreParent | PostParent | DoParent
  | PreLink | PostLink | DoLink | DoUnlink
  | PreHas | PostHas => true
  | _ => false
  end.

(** [interpretation(x)] as a term. *)
Definition interpretation_term (x : expr) : expr :=
  App "interpretation" Identifier [x].

(** The catalogue of the specification: the atomic formula each
    relational leaf stands for, over the interpreted arguments. *)
Definition catalogue (c : cls) (m : Model) (ids : list expr) : option expr :=
  match c, ids with
  | PreParent, [a; b] => Some (parents (pregraph m) a b)
  | PostParent, [a; b] => Some (parents (postgraph m) a b)
  | DoParent, [a; b] => Some (action_has (action m) (parent_action a b))
  | PreLink, [a; b] => Some (links (pregraph m) a b)
  | PostLink, [a; b] => Some (links (postgraph m) a b)
  | DoLink, [a; b] => Some (action_has (action m) (link_action a b))
  | DoUnlink, [a; b] => Some (action_has (action m) (unlink_action a b))
  | PreHas, [a] => Some (has (pregraph m) a)
  | PostHas, [a] => Some (has (postgraph m) a)
  | _, _ => None
  end.

(** The object [AtomicPredicate.__init__] has built when it returns:
    the attributes it assigned, with the solver as [initialize] left
    it. *)
Definition initialized_object (c : cls) (m : Model) (s : Solver) : object :=
  setattr "solver" (VSolver s)
    (setattr "_status" VNone
      (setattr "_asserted_yet" (VBool false)
        (setattr "interpretation"
           (VFunc (Function "interpretation" [Variable_] Identifier))
          (setattr "graphactionpair" (VModel m)
            (setattr "solver" (VSolver new_solver)
              {| class := c; dict := ∅ |}))))).

(** The session once [f] was added to [s] and checked. *)
Definition checked (O : Oracle) (s : Solver) (f : expr) : Solver :=
  {| assertions := assertions s ++ [f];
     checks := S (checks s);
     last_check := Some (decide_sat O (assertions s ++ [f])) |}.

(** The object [_assert_over] leaves when nothing raises: the
    assignments it made, in order. *)
Definition assert_over_leaves (O : Oracle) (self : object) (s : Solver) (f : expr)
    : object :=
  setattr "_asserted_yet" (VBool true)
    (setattr "_status" (VStatus (decide_sat O (assertions s ++ [f])))
      (setattr "solver" (VSolver (checked O s f))
        (setattr "solver" (VSolver (solver_add s f)) self))).

(** The flag, the status and the solver agree: either nothing was
    asserted and there is no status, or the status is the answer of the
    solver's last check. *)
Definition consistent (self : object) : Prop :=
  (dict self !! "_asserted_yet" = Some (VBool false) /\
   dict self !! "_status" = Some VNone /\
   exists s, dict self !! "solver" = Some (VSolver s))
  \/
  (exists s st,
     dict self !! "_asserted_yet" = Some (VBool true) /\
     dict self !! "_status" = Some (VStatus st) /\
     dict self !! "solver" = Some (VSolver s) /\
     last_check s = Some st).

(** The attributes the evaluator methods assign. *)
Definition evaluator_attribute (name : string) : bool :=
  bool_decide (name = "solver") || bool_decide (name = "_status")
  || bool_decide (name = "_asserted_yet").

(** *** Connectives over the atomic predicates *)

(** Modelled from the spec: the sources hold no combinator for the
    atomic predicates of this module.  The connectives And, Or and Not
    are the standard ones over the compiled sub-formulas, of any arity
    for And and Or; a leaf compiles by its own [get_predicate]. *)
Inductive Query : Type :=
| Atom (p : object)
| QAnd (qs : list Query)
| QOr (qs : list Query)
| QNot (q : Query).

Fixpoint compile (q : Query) : result expr :=
  match q with
  | Atom p => v ← get_predicate p; cast_bool v
  | QAnd qs =>
      Z3.And <$> (fix each (l : list Query) : result (list expr) :=
                    match l with
                    | [] => Ok []
                    | q :: l => f ← compile q; fs ← each l; Ok (f :: fs)
                    end) qs
  | QOr qs =>
      Z3.Or <$> (fix each (l : list Query) : result (list expr) :=
                   match l with
                   | [] => Ok []
                   | q :: l => f ← compile q; fs ← each l; Ok (f :: fs)
                   end) qs
  | QNot q => Z3.Not <$> compile q
  end.

(** Modelled from the spec: the evaluator of a composite query
    compiles it to one formula, asserts that formula once in its
    session and runs the decision procedure. *)
Definition query_check_sat (O : Oracle) (session : Solver) (q : Query)
    : result CheckSatResult :=
  f ← compile q;
  Ok (solver_check O (solver_add session f)).1.

(** *** Models to run the definitions on *)

Definition plain_graph (name : string) : Graph :=
  {| has := fun a => App (name +:+ ".has") BoolSort [a];
     parents := fun a b => App (name +:+ ".parents") BoolSort [a; b];
     links := fun a b => App (name +:+ ".links") BoolSort [a; b] |}.

(** A model whose [initialize] asserts the given axioms. *)
Definition model_with (axioms : list expr) : Model :=
  {| initialize := fun s => Ok (foldl solver_add s axioms);
     pregraph := plain_graph "pregraph";
     postgraph := plain_graph "postgraph";
     action := {| action_has := fun e => App "action.has" BoolSort [e] |} |}.

End L_to_z3.

(** ** new_engine/predicate.py *)

Module New_engine.

Import Z3.

(** *** What the module imports from datatypes.py *)

Definition Rule : sort := Datatype "Rule".
Definition Graph : sort := Datatype "Graph".

(** Modelled from the spec: datatypes.py is not among the sources.  A
    Rule owns one pregraph and one postgraph, reached by accessors. *)
Definition Rule_pregraph : FuncDecl := Function "pregraph" [Rule] Graph.
Definition Rule_postgraph : FuncDecl := Function "postgraph" [Rule] Graph.

(** The interpreter state the module touches: the global counter behind
    [datatypes.new_rule], and the one attribute that is assigned after
    construction, [rule_variable] of each ModelHasRule instance, kept
    per object identity so that a node used twice is one node. *)
Record world : Type := mkWorld {
  rule_counter : nat;
  next_id : nat;
  rule_variable : gmap nat (option expr)
}.

(** Modelled from the spec: [datatypes.new_rule()] makes a fresh Rule
    from a global counter, with a strictly increasing tag. *)
Definition new_rule : M world expr :=
  fun w =>
    (Ok (FreshConst (rule_counter w) Rule),
     {| rule_counter := S (rule_counter w);
        next_id := next_id w;
        rule_variable := rule_variable w |}).

(** *** Values and predicates *)

(** Python values, and the instances of the classes of this module.
    A ModelHasRule carries its identity; its [rule_variable] lives in
    the [world].  Instances of classes from other modules, such as the
    structures that PregraphHas and PostgraphHas are written for, are
    not among the values: what is proved of those two combinators is
    proved for the values listed here. *)
Inductive pyval : Type :=
| PNone
| PBool (b : bool)
| PInt (n : Z)
| PStr (s : string)
| PExpr (e : expr)
| PFunc (f : FuncDecl)
| PLambda (f : expr -> world -> result pyval * world)
| PPred (p : Predicate)
with Predicate : Type :=
| Base
| And (preds : list Predicate)
| Not (pred : Predicate)
| Or (preds : list Predicate)
| ModelHasRule (id : nat) (rule_function : pyval)
| PregraphHas (rule structure : pyval)
| PostgraphHas (rule structure : pyval)
| Top
| Bottom.

(** A stand-in for [repr(thing)] in the error message.  It is Python's
    text for None, the booleans and integers; for strings with quotes or
    escapes, z3 values and functions it is not, and no statement below
    depends on the text of a message built with it. *)
Definition repr (thing : pyval) : string :=
  match thing with
  | PNone => "None"
  | PBool true => "True"
  | PBool false => "False"
  | PInt n => pretty n
  | PStr s => "'" +:+ s +:+ "'"
  | PExpr _ => "<z3 expression>"
  | PFunc f => fname f
  | PLambda _ => "<function <lambda>>"
  | PPred _ => "<predicate object>"
  end.

(** [_ensure_predicate] *)
Definition _ensure_predicate (thing : pyval) : result unit :=
  match thing with
  | PPred _ => Ok tt
  | _ => Raise (ValueError
           ("Argument must be instance of Predicate. Instead, got " +:+ repr thing))
  end.

(** *** Constructors *)

Definition as_predicate (thing : pyval) : result Predicate :=
  match thing with
  | PPred p => Ok p
  | _ => Raise (TypeError "not a Predicate")
  end.

(** The loop [for pred in preds: _ensure_predicate(pred)]. *)
Fixpoint ensure_all (preds : list pyval) : result (list Predicate) :=
  match preds with
  | [] => Ok []
  | pred :: preds =>
      _ensure_predicate pred ;;
      p ← as_predicate pred;
      ps ← ensure_all preds;
      Ok (p :: ps)
  end.

Definition And_init (preds : list pyval) : result Predicate :=
  ps ← ensure_all preds; Ok (And ps).

Definition Or_init (preds : list pyval) : result Predicate :=
  ps ← ensure_all preds; Ok (Or ps).

Definition Not_init (pred : pyval) : result Predicate :=
  _ensure_predicate pred ;;
  p ← as_predicate pred;
  Ok (Not p).

(** [ModelHasRule.__init__]: stores the function, and [None] for the
    rule variable of the new object. *)
Definition ModelHasRule_init (rule_function : pyval) : M world Predicate :=
  fun w =>
    (Ok (ModelHasRule (next_id w) rule_function),
     {| rule_counter := rule_counter w;
        next_id := S (next_id w);
        rule_variable := <[next_id w := None]> (rule_variable w) |}).

Definition PregraphHas_init (rule structure : pyval) : result Predicate :=
  Ok (PregraphHas rule structure).

Definition PostgraphHas_init (rule structure : pyval) : result Predicate :=
  Ok (PostgraphHas rule structure).

Definition Top_init : result Predicate := Ok Top.
Definition Bottom_init : result Predicate := Ok Bottom.

(** *** Compilation *)

(** What [z3.And], [z3.Or] and [z3.Not] make of an argument. *)
Definition coerce_bool (v : pyval) : result expr :=
  match v with
  | PBool b => Ok (BoolVal b)
  | PExpr e =>
      if decide (sort_of e = BoolSort) then Ok e
      else Raise (Z3Exception "True, False or Z3 Boolean expression expected")
  | _ => Raise (Z3Exception "True, False or Z3 Boolean expression expected")
  end.

Fixpoint coerce_all (vs : list pyval) : result (list expr) :=
  match vs with
  | [] => Ok []
  | v :: vs => e ← coerce_bool v; es ← coerce_all vs; Ok (e :: es)
  end.

Definition z3_And (args : list pyval) : result pyval :=
  es ← coerce_all args; Ok (PExpr (Z3.And es)).

Definition z3_Or (args : list pyval) : result pyval :=
  es ← coerce_all args; Ok (PExpr (Z3.Or es)).

Definition z3_Not (a : pyval) : result pyval :=
  e ← coerce_bool a; Ok (PExpr (Z3.Not e)).

Definition z3_Exists (bound : list expr) (body : pyval) : result pyval :=
  e ← coerce_bool body; Ok (PExpr (Z3.Exists bound e)).

(** [f(rule)] for a Python value [f] and a z3 expression. *)
Definition py_call (f : pyval) (a : expr) : M world pyval :=
  match f with
  | PFunc f => lift (PExpr <$> apply f [a])
  | PLambda f => f a
  | _ => throw (TypeError "object is not callable")
  end.

(** [accessor(rule)] for [datatypes.Rule.pregraph] and [postgraph]. *)
Definition accessor_call (f : FuncDecl) (rule : pyval) : result pyval :=
  match rule with
  | PExpr r => PExpr <$> apply f [r]
  | _ => Raise (Z3Exception "cannot coerce argument")
  end.

Definition set_rule_variable (id : nat) (r : expr) : M world unit :=
  fun w =>
    (Ok tt,
     {| rule_counter := rule_counter w;
        next_id := next_id w;
        rule_variable := <[id := Some r]> (rule_variable w) |}).

(** Reading [self.rule_variable] where a z3 expression is needed. *)
Definition get_rule_variable (id : nat) : M world expr :=
  fun w =>
    match rule_variable w !! id with
    | Some (Some r) => (Ok r, w)
    | Some None => (Raise (Z3Exception "cannot coerce argument"), w)
    | None => (Raise (AttributeError "rule_variable"), w)
    end.

Definition arity_error : exn :=
  TypeError "_assert() takes exactly 4 arguments".

(** The call of [p._assert] on positional arguments.  Every class declares
    [_assert(self, model, string_interner, node_interner)], so a call
    with another number of arguments raises TypeError before any body
    runs. *)
Fixpoint _assert (p : Predicate) (args : list pyval) {struct p} : M world pyval :=
  match args with
  | [model; string_interner; node_interner] =>
      match p with
      | Base => throw (NotImplementedError "Implement _assert in subclasses.")
      | And preds =>
          fs ← (fix each (l : list Predicate) : M world (list pyval) :=
                  match l with
                  | [] => mret []
                  | q :: l =>
                      f ← _assert q [model; string_interner; node_interner];
                      fs ← each l;
                      mret (f :: fs)
                  end) preds;
          lift (z3_And fs)
      | Not pred =>
          f ← _assert pred [model; string_interner; node_interner];
          lift (z3_Not f)
      | Or preds =>
          fs ← (fix each (l : list Predicate) : M world (list pyval) :=
                  match l with
                  | [] => mret []
                  | q :: l =>
                      f ← _assert q [model; string_interner; node_interner];
                      fs ← each l;
                      mret (f :: fs)
                  end) preds;
          lift (z3_Or fs)
      | ModelHasRule id rule_function =>
          r ← new_rule;
          set_rule_variable id r ;;
          bound ← get_rule_variable id;
          r1 ← get_rule_variable id;
          a ← py_call model r1;
          r2 ← get_rule_variable id;
          (* self.rule_function(self.rule_variable)._assert(model) *)
          b ← (fun w =>
                 match rule_function with
                 | PLambda f =>
                     match f r2 w with
                     | (Ok (PPred q), w) => _assert q [model] w
                     | (Ok _, w) => (Raise (AttributeError "_assert"), w)
                     | (Raise e, w) => (Raise e, w)
                     end
                 | PFunc f =>
                     match apply f [r2] with
                     | Ok _ => (Raise (AttributeError "_assert"), w)
                     | Raise e => (Raise e, w)
                     end
                 | _ => (Raise (TypeError "object is not callable"), w)
                 end);
          body ← lift (z3_And [a; b]);
          lift (z3_Exists [bound] body)
      | PregraphHas rule structure =>
          match structure with
          | PPred q =>
              g ← lift (accessor_call Rule_pregraph rule);
              _assert q [g]
          | _ => throw (AttributeError "_assert")
          end
      | PostgraphHas rule structure =>
          match structure with
          | PPred q =>
              g ← lift (accessor_call Rule_postgraph rule);
              _assert q [g]
          | _ => throw (AttributeError "_assert")
          end
      | Top => lift (z3_Or [PBool true])
      | Bottom => lift (z3_And [PBool false])
      end
  | _ => throw arity_error
  end.

(** [Predicate.get_predicate] *)
Definition get_predicate (self : Predicate)
    (model_variable string_interner node_interner : pyval) : M world pyval :=
  predicate ← _assert self [model_variable; string_interner; node_interner];
  mret predicate.

(** *** The query evaluator *)

(** Modelled from the spec: solver.py, which [get_predicate] names as
    its only caller, is not among the sources.  The evaluator owns one
    solving session; checkSat compiles the predicate and asserts the
    formula on the first call only, runs the decision procedure, and
    answers the cached status afterwards. *)
Record Evaluator : Type := mkEvaluator {
  predicate : Predicate;
  session : Solver;
  asserted : bool;
  status : option CheckSatResult
}.

Definition new_evaluator (p : Predicate) : Evaluator :=
  {| predicate := p; session := new_solver; asserted := false; status := None |}.

Definition checkSat (O : Oracle) (model_variable string_interner node_interner : pyval)
    (ev : Evaluator) : M world (option CheckSatResult * Evaluator) :=
  if asserted ev then mret (status ev, ev)
  else
    v ← get_predicate (predicate ev) model_variable string_interner node_interner;
    f ← lift (coerce_bool v);
    let s := solver_add (session ev) f in
    let (st, s) := solver_check O s in
    mret (Some st,
          {| predicate := predicate ev; session := s;
             asserted := true; status := Some st |}).

(** Direct boolean evaluation, in the words of the specification:
    Top is true, Bottom is false, And is all, Or is any, Not is
    negation.  Other nodes have no fixed truth value. *)
Fixpoint boolean_tree (p : Predicate) : bool :=
  match p with
  | Top | Bottom => true
  | And ps | Or ps => forallb boolean_tree ps
  | Not q => boolean_tree q
  | _ => false
  end.

Fixpoint truth (p : Predicate) : bool :=
  match p with
  | Top => true
  | Bottom => false
  | And ps => forallb truth ps
  | Or ps => existsb truth ps
  | Not q => negb (truth q)
  | _ => false
  end.

(** Nodes whose compilation reaches no ModelHasRule. *)
Fixpoint rule_free (p : Predicate) : bool :=
  match p with
  | And ps | Or ps => forallb rule_free ps
  | Not q => rule_free q
  | ModelHasRule _ _ => false
  | _ => true
  end.

(** What Python can call among these values. *)
Definition callable (v : pyval) : bool :=
  match v with
  | PFunc _ | PLambda _ => true
  | _ => false
  end.

(** The state in which ModelHasRule calls its function: the counter
    advanced, the new rule stored in the node. *)
Definition after_new_rule (id : nat) (w : world) : world :=
  {| rule_counter := S (rule_counter w);
     next_id := next_id w;
     rule_variable := <[id := Some (FreshConst (rule_counter w) Rule)]> (rule_variable w) |}.

Definition empty_world : world :=
  {| rule_counter := 0; next_id := 0; rule_variable := ∅ |}.

(** The z3 function from Rule to Bool that stands for the model. *)
Definition model_function : pyval := PFunc (Function "model" [Rule] BoolSort).

(** [lambda r: Top()] *)
Definition always_top : pyval := PLambda (fun _ w => (Ok (PPred Top), w)).

End New_engine.

(** * Properties of the atomic predicates *)

Section Atomic_predicates.

Import Z3 L_to_z3.

Lemma ensure_variable_spec v :
  ensure_variable v =
    if is_variable v then Ok tt else Raise (ValueError ensure_variable_msg).
Proof.
  destruct v; try reflexivity.
  unfold ensure_variable, is_variable; simpl.
  destruct (bool_decide (sort_of e = Variable_)); reflexivity.
Qed.

Lemma AtomicPredicate_init_inv c args self :
  AtomicPredicate_init c args = Ok self ->
  exists m s,
    args = [VModel m] /\ initialize m new_solver = Ok s /\
    self = initialized_object c m s.
Proof.
  unfold AtomicPredicate_init.
  destruct args as [|g [|? ?]]; try discriminate.
  destruct g; try discriminate.
  destruct (initialize m new_solver) as [s|e] eqn:Hi; simpl; try discriminate.
  intros [= <-]. exists m, s. auto.
Qed.

Lemma AtomicPredicate_init_ok c m s :
  initialize m new_solver = Ok s ->
  AtomicPredicate_init c [VModel m] = Ok (initialized_object c m s).
Proof. intros H. unfold AtomicPredicate_init. rewrite H. reflexivity. Qed.

Lemma binary_init_inv c args self :
  binary_init c args = Ok self ->
  exists x y m s,
    args = [x; y; VModel m] /\ initialize m new_solver = Ok s /\
    is_variable x = true /\ is_variable y = true /\
    self = setattr "y" y (setattr "x" x (initialized_object c m s)).
Proof.
  unfold binary_init.
  destruct args as [|x [|y rest]]; try discriminate.
  destruct (AtomicPredicate_init c rest) as [o|] eqn:Ho; try discriminate.
  apply AtomicPredicate_init_inv in Ho as (m & s & -> & Hi & ->).
  simpl. rewrite !ensure_variable_spec.
  destruct (is_variable x) eqn:Hx; try discriminate.
  destruct (is_variable y) eqn:Hy; try discriminate.
  simpl. intros [= <-]. exists x, y, m, s. auto.
Qed.

Lemma unary_init_inv c args self :
  unary_init c args = Ok self ->
  exists x m s,
    args = [x; VModel m] /\ initialize m new_solver = Ok s /\
    is_variable x = true /\
    self = setattr "x" x (initialized_object c m s).
Proof.
  unfold unary_init.
  destruct args as [|x rest]; try discriminate.
  destruct (AtomicPredicate_init c rest) as [o|] eqn:Ho; try discriminate.
  apply AtomicPredicate_init_inv in Ho as (m & s & -> & Hi & ->).
  simpl. rewrite !ensure_variable_spec.
  destruct (is_variable x) eqn:Hx; try discriminate.
  simpl. intros [= <-]. exists x, m, s. auto.
Qed.

Lemma Labeled_init_inv args self :
  Labeled_init args = Ok self ->
  exists x label m s,
    args = [x; label; VModel m] /\ initialize m new_solver = Ok s /\
    is_variable x = true /\
    self = setattr "x" x (setattr "label" label (initialized_object Labeled m s)).
Proof.
  unfold Labeled_init.
  destruct args as [|x [|label rest]]; try discriminate.
  destruct (AtomicPredicate_init Labeled rest) as [o|] eqn:Ho; try discriminate.
  apply AtomicPredicate_init_inv in Ho as (m & s & -> & Hi & ->).
  simpl. rewrite !ensure_variable_spec.
  destruct (is_variable x) eqn:Hx; try discriminate.
  simpl. intros [= <-]. exists x, label, m, s. auto.
Qed.

(** Every constructor that returns has run [AtomicPredicate.__init__]
    on a model, and left its attributes but for the ones it adds. *)
Lemma new_inv c args self :
  new c args = Ok self ->
  exists m s,
    base_args c args = [VModel m] /\ initialize m new_solver = Ok s /\
    class self = c /\
    Forall (fun v => is_variable v = true) (variable_args c args) /\
    forall name, name <> "x" -> name <> "y" -> name <> "label" ->
      dict self !! name = dict (initialized_object c m s) !! name.
Proof.
  intros H.
  destruct c; unfold new in H;
    try (apply AtomicPredicate_init_inv in H as (m & s & -> & Hi & ->);
         exists m, s; repeat split; auto; constructor);
    try (apply binary_init_inv in H as (x & y & m & s & -> & Hi & Hx & Hy & ->);
         exists m, s; repeat split; auto;
         [ repeat constructor; assumption
         | intros name ? ? ?; simpl; rewrite !lookup_insert_ne by congruence;
           reflexivity ]);
    try (apply unary_init_inv in H as (x & m & s & -> & Hi & Hx & ->);
         exists m, s; repeat split; auto;
         [ repeat constructor; assumption
         | intros name ? ? ?; simpl; rewrite !lookup_insert_ne by congruence;
           reflexivity ]).
  apply Labeled_init_inv in H as (x & label & m & s & -> & Hi & Hx & ->).
  exists m, s; repeat split; auto.
  - repeat constructor; assumption.
  - intros name ? ? ?; simpl; rewrite !lookup_insert_ne by congruence; reflexivity.
Qed.

(** ** Validation of Variable arguments *)

(** C10.  Each atomic predicate that takes Variable arguments -- Equal,
    Labeled, the seven relations, PreHas and PostHas -- fails in its
    constructor when one of those arguments is not of the solver sort
    Variable: no object is returned, so nothing is deferred, and when
    the remaining argument is a model that initializes, the error is
    the ValueError with the message of [ensure_variable]. *)
Theorem constructor_rejects_non_variable c args v :
  v ∈ variable_args c args -> is_variable v = false ->
  (forall self, new c args <> Ok self) /\
  (forall m s, base_args c args = [VModel m] ->
               initialize m new_solver = Ok s ->
               new c args = Raise (ValueError ensure_variable_msg)).
Proof.
  intros Hin Hv. split.
  - intros self H. apply new_inv in H as (m & s & _ & _ & _ & Hall & _).
    rewrite Forall_forall in Hall. specialize (Hall v Hin). congruence.
  - intros m s Hb Hi.
    destruct c; unfold variable_args, base_args in *; simpl in *;
      try (apply elem_of_nil in Hin; contradiction);
      unfold binary_init, unary_init, Labeled_init.
    all: repeat match goal with
           | H : drop _ ?l = [_] |- _ =>
               destruct l; simpl in H; try discriminate
           end.
    all: simplify_eq; simpl in Hin.
    all: rewrite (AtomicPredicate_init_ok _ _ _ Hi); simpl.
    all: rewrite !ensure_variable_spec.
    all: repeat match goal with
           | H : _ ∈ _ :: _ |- _ => apply elem_of_cons in H as [<- | H]
           | H : _ ∈ [] |- _ => apply elem_of_nil in H; contradiction
           end.
    all: try (rewrite Hv; reflexivity).
    all: match goal with
         | |- context [is_variable ?x] =>
             destruct (is_variable x); try reflexivity; simpl; rewrite Hv; reflexivity
         end.
Qed.

Lemma constructor_rejects_non_variable_witness :
  new Equal [VInt 1; VExpr (variable 2); VModel (model_with [])]
  = Raise (ValueError ensure_variable_msg).
Proof.
  apply (proj2 (constructor_rejects_non_variable
                  Equal [VInt 1; VExpr (variable 2); VModel (model_with [])]
                  (VInt 1) ltac:(left) ltac:(reflexivity))
           (model_with []) new_solver);
    reflexivity.
Defined.

(** ** Compilation of the relational leaves *)

(** No constructor assigns the attribute [model] that the relational
    leaves read. *)
Lemma new_has_no_model c args self :
  new c args = Ok self -> dict self !! "model" = None.
Proof.
  intros H. apply new_inv in H as (m & s & _ & _ & _ & _ & Hd).
  rewrite Hd by discriminate. reflexivity.
Qed.

(** C1.  The relational leaves do not compile to the formulas of the
    catalogue: [get_predicate] of PreParent, PostParent, DoParent,
    PreLink, PostLink, DoLink, DoUnlink, PreHas and PostHas reads
    [self.model], an attribute that the constructor never assigns (it
    stores its argument as [self.graphactionpair]), and so raises
    AttributeError on every object that was constructed. *)
Theorem relational_leaf_compilation_raises c args self :
  relational c = true ->
  new c args = Ok self ->
  get_predicate self = Raise (AttributeError "model").
Proof.
  intros Hc H.
  pose proof (new_has_no_model _ _ _ H) as Hm.
  apply new_inv in H as (_ & _ & _ & _ & Hcls & _).
  unfold get_predicate, model_pregraph, model_postgraph, model_action, getattr.
  rewrite Hcls, Hm.
  destruct c; try discriminate; reflexivity.
Qed.

Lemma relational_leaf_compilation_raises_witness :
  exists self,
    new PreParent [VExpr (variable 1); VExpr (variable 2); VModel (model_with [])]
      = Ok self /\
    get_predicate self = Raise (AttributeError "model").
Proof.
  eexists. split; [reflexivity|].
  apply (relational_leaf_compilation_raises PreParent
           [VExpr (variable 1); VExpr (variable 2); VModel (model_with [])]);
    reflexivity.
Defined.

(** Once the attribute is there -- assigned from outside, to the model
    the object was built on -- the bodies do return the formulas of the
    catalogue, over the interpreted arguments. *)
Lemma relational_leaf_formula_with_model c args self m xs :
  relational c = true ->
  new c args = Ok self ->
  variable_args c args = VExpr <$> xs ->
  exists f,
    catalogue c m (interpretation_term <$> xs) = Some f /\
    get_predicate (setattr "model" (VModel m) self) = Ok (VExpr f).
Proof.
  intros Hc H Hxs.
  destruct c; try discriminate; unfold new in H.
  all: first
    [ apply binary_init_inv in H as (x & y & m0 & s & -> & Hi & Hx & Hy & ->);
      destruct xs as [|ex [|ey [|? ?]]]; try discriminate;
      injection Hxs as -> ->
    | apply unary_init_inv in H as (x & m0 & s & -> & Hi & Hx & ->);
      destruct xs as [|ex [|? ?]]; try discriminate;
      injection Hxs as -> ].
  all: simpl in Hx; try simpl in Hy.
  all: apply bool_decide_eq_true in Hx; try apply bool_decide_eq_true in Hy.
  all: eexists; split; [reflexivity|].
  all: unfold get_predicate, model_pregraph, model_postgraph, model_action,
         interpretation_of, getattr; simpl.
  all: repeat (rewrite lookup_insert_eq || rewrite lookup_insert_ne by discriminate;
               simpl).
  all: unfold apply; simpl; rewrite Hx, ?Hy; simpl.
  all: repeat (rewrite lookup_insert_eq || rewrite lookup_insert_ne by discriminate;
               simpl).
  all: unfold apply; simpl; rewrite ?Hx, ?Hy; reflexivity.
Qed.

End Atomic_predicates.

(** * Properties of the evaluator methods *)

Section Evaluator_methods.

Import Z3 L_to_z3.

Context (O : Oracle).

Lemma bind_ok {S A B} (m : M S A) (k : A -> M S B) s a s' :
  m s = (Ok a, s') -> (m ≫= k) s = k a s'.
Proof. intros H. unfold mbind, M_bind. rewrite H. reflexivity. Qed.

Lemma attr_ok name self v :
  dict self !! name = Some v -> attr name self = (Ok v, self).
Proof. intros H. unfold attr, getattr. rewrite H. reflexivity. Qed.

Lemma attr_solver_ok self s :
  dict self !! "solver" = Some (VSolver s) -> attr_solver self = (Ok s, self).
Proof.
  intros H. unfold attr_solver.
  rewrite (bind_ok _ _ _ _ _ (attr_ok _ _ _ H)). reflexivity.
Qed.

Lemma _assert_over_ok self s v f :
  dict self !! "solver" = Some (VSolver s) ->
  get_predicate self = Ok v ->
  cast_bool v = Ok f ->
  _assert_over O self = (Ok tt, assert_over_leaves O self s f).
Proof.
  intros Hs Hv Hf. unfold _assert_over.
  rewrite (bind_ok _ _ _ _ _ (attr_solver_ok _ _ Hs)).
  erewrite bind_ok by (rewrite Hv; reflexivity).
  erewrite bind_ok by (unfold lift; rewrite Hf; reflexivity).
  erewrite bind_ok by reflexivity.
  erewrite bind_ok by (apply attr_solver_ok, lookup_insert_eq).
  reflexivity.
Qed.

Lemma check_sat_first self s v f :
  dict self !! "solver" = Some (VSolver s) ->
  dict self !! "_asserted_yet" = Some (VBool false) ->
  get_predicate self = Ok v ->
  cast_bool v = Ok f ->
  check_sat O self =
    (Ok (VStatus (decide_sat O (assertions s ++ [f]))), assert_over_leaves O self s f).
Proof.
  intros Hs Ha Hv Hf. unfold check_sat.
  rewrite (bind_ok _ _ _ _ _ (attr_ok _ _ _ Ha)). simpl.
  rewrite (bind_ok _ _ _ _ _ (_assert_over_ok _ _ _ _ Hs Hv Hf)).
  apply attr_ok. simpl.
  rewrite lookup_insert_ne by discriminate. apply lookup_insert_eq.
Qed.

Lemma check_sat_cached self :
  dict self !! "_asserted_yet" = Some (VBool true) ->
  check_sat O self = (getattr "_status" self, self).
Proof.
  intros Ha. unfold check_sat.
  rewrite (bind_ok _ _ _ _ _ (attr_ok _ _ _ Ha)). reflexivity.
Qed.

Lemma get_model_first self s v f :
  dict self !! "solver" = Some (VSolver s) ->
  dict self !! "_asserted_yet" = Some (VBool false) ->
  get_predicate self = Ok v ->
  cast_bool v = Ok f ->
  get_model O self = (solver_model O (checked O s f), assert_over_leaves O self s f).
Proof.
  intros Hs Ha Hv Hf. unfold get_model.
  rewrite (bind_ok _ _ _ _ _ (attr_ok _ _ _ Ha)). simpl.
  rewrite (bind_ok _ _ _ _ _ (_assert_over_ok _ _ _ _ Hs Hv Hf)).
  erewrite bind_ok
    by (apply attr_solver_ok; simpl;
        rewrite !lookup_insert_ne by discriminate; apply lookup_insert_eq).
  reflexivity.
Qed.

Lemma get_model_cached self s :
  dict self !! "solver" = Some (VSolver s) ->
  dict self !! "_asserted_yet" = Some (VBool true) ->
  get_model O self = (solver_model O s, self).
Proof.
  intros Hs Ha. unfold get_model.
  rewrite (bind_ok _ _ _ _ _ (attr_ok _ _ _ Ha)). simpl.
  erewrite bind_ok by reflexivity.
  rewrite (bind_ok _ _ _ _ _ (attr_solver_ok _ _ Hs)).
  reflexivity.
Qed.

(** Whatever [_assert_over] does, also when it raises, it does not
    clear the flag. *)
Lemma _assert_over_keeps_flag self :
  dict self !! "_asserted_yet" = Some (VBool true) ->
  dict (_assert_over O self).2 !! "_asserted_yet" = Some (VBool true).
Proof.
  intros Ha. unfold _assert_over, attr_solver, attr, getattr, lift, throw, assign.
  unfold mbind, M_bind, mret, M_ret.
  destruct (dict self !! "solver") as [[]|]; simpl; try assumption.
  destruct (get_predicate self) as [v|]; simpl; try assumption.
  destruct (cast_bool v); simpl; try assumption.
  rewrite lookup_insert_eq. simpl. apply lookup_insert_eq.
Qed.

Lemma check_sat_keeps_flag self :
  dict self !! "_asserted_yet" = Some (VBool true) ->
  dict (check_sat O self).2 !! "_asserted_yet" = Some (VBool true).
Proof. intros Ha. rewrite check_sat_cached by assumption. assumption. Qed.

Lemma get_model_keeps_flag self :
  dict self !! "_asserted_yet" = Some (VBool true) ->
  dict (get_model O self).2 !! "_asserted_yet" = Some (VBool true).
Proof.
  intros Ha. unfold get_model.
  rewrite (bind_ok _ _ _ _ _ (attr_ok _ _ _ Ha)). simpl.
  erewrite bind_ok by reflexivity.
  unfold attr_solver, attr, getattr, lift, throw, mbind, M_bind, mret, M_ret.
  destruct (dict self !! "solver") as [[]|]; simpl; assumption.
Qed.

(** ** Memoization *)

(** C3, as the code has it.  On an evaluator that has not asserted yet
    and whose predicate compiles, the first [check_sat] adds the compiled formula to the
    session -- that one formula, once -- runs the decision procedure
    once and returns its answer, one of sat, unsat and unknown.  Every
    later [check_sat] returns the same status and leaves the object, its
    session included, exactly as it was: nothing is compiled, asserted
    or checked again.  No method clears the flag [_asserted_yet]. *)
Theorem check_sat_memoized self s v f :
  dict self !! "solver" = Some (VSolver s) ->
  dict self !! "_asserted_yet" = Some (VBool false) ->
  get_predicate self = Ok v ->
  cast_bool v = Ok f ->
  let st := decide_sat O (assertions s ++ [f]) in
  let self' := (check_sat O self).2 in
  (check_sat O self).1 = Ok (VStatus st) /\
  dict self' !! "solver" =
    Some (VSolver {| assertions := assertions s ++ [f];
                     checks := S (checks s);
                     last_check := Some st |}) /\
  dict self' !! "_asserted_yet" = Some (VBool true) /\
  (forall n, let later := Nat.iter n (fun o => (check_sat O o).2) self' in
     later = self' /\ check_sat O later = (Ok (VStatus st), self')) /\
  (forall o, dict o !! "_asserted_yet" = Some (VBool true) ->
     dict (check_sat O o).2 !! "_asserted_yet" = Some (VBool true) /\
     dict (get_model O o).2 !! "_asserted_yet" = Some (VBool true) /\
     dict (_assert_over O o).2 !! "_asserted_yet" = Some (VBool true)).
Proof.
  intros Hs Ha Hv Hf st self'. subst self'.
  rewrite (check_sat_first _ _ _ _ Hs Ha Hv Hf). simpl.
  assert (Hagain : check_sat O (assert_over_leaves O self s f)
                   = (Ok (VStatus st), assert_over_leaves O self s f)).
  { rewrite check_sat_cached by apply lookup_insert_eq.
    unfold getattr. simpl.
    rewrite lookup_insert_ne by discriminate. rewrite lookup_insert_eq.
    reflexivity. }
  split; [reflexivity|]. split.
  { rewrite !lookup_insert_ne by discriminate. apply lookup_insert_eq. }
  split; [apply lookup_insert_eq|]. split.
  - intros n. induction n as [|n [IH1 IH2]]; simpl.
    + split; [reflexivity | exact Hagain].
    + rewrite IH1, Hagain. simpl. split; [reflexivity | exact Hagain].
  - intros o Ho. split; [|split].
    + apply check_sat_keeps_flag, Ho.
    + apply get_model_keeps_flag, Ho.
    + apply _assert_over_keeps_flag, Ho.
Qed.

(** ** Reading the model *)

(** C4, as the code has it.  [get_model] asserts first if that is still
    to do, and then hands back what the solver's [model()] gives: the
    model the decision procedure holds for the asserted session, or
    else its Z3Exception, model is not available.  The cached status is
    not looked at.  So the call fails after unsat, for which Z3 keeps
    no model; after unknown it fails or returns as the decision
    procedure has it. *)
Theorem get_model_defers_to_solver self s v f :
  dict self !! "solver" = Some (VSolver s) ->
  dict self !! "_asserted_yet" = Some (VBool false) ->
  get_predicate self = Ok v ->
  cast_bool v = Ok f ->
  let outcome :=
    match read_model O (assertions s ++ [f]) with
    | Some m => Ok m
    | None => Raise model_not_available
    end in
  (get_model O self).1 = outcome /\
  (get_model O (check_sat O self).2).1 = outcome /\
  (no_model_after_unsat O ->
   (check_sat O self).1 = Ok (VStatus unsat) ->
   (get_model O self).1 = Raise model_not_available /\
   (get_model O (check_sat O self).2).1 = Raise model_not_available).
Proof.
  intros Hs Ha Hv Hf outcome.
  assert (H1 : (get_model O self).1 = outcome).
  { rewrite (get_model_first _ _ _ _ Hs Ha Hv Hf). reflexivity. }
  assert (H2 : (get_model O (check_sat O self).2).1 = outcome).
  { rewrite (check_sat_first _ _ _ _ Hs Ha Hv Hf). simpl.
    rewrite (get_model_cached _ (checked O s f)); [reflexivity | | apply lookup_insert_eq].
    simpl. rewrite !lookup_insert_ne by discriminate. apply lookup_insert_eq. }
  split; [exact H1|]. split; [exact H2|].
  intros Hcontract Hunsat.
  rewrite (check_sat_first _ _ _ _ Hs Ha Hv Hf) in Hunsat. simpl in Hunsat.
  injection Hunsat as Hunsat.
  rewrite H1, H2. subst outcome.
  rewrite (Hcontract _ Hunsat). auto.
Qed.

(** ** What construction does to a solver *)

(** C5, as the code has it.  Every constructor of an atomic predicate
    that returns has created a solver for the new object and had the
    model initialize it; the session is as [initialize] left it.  It
    has asserted no formula of the predicate: the object is not yet
    asserted and has no status.  The formula that [get_predicate]
    returns enters the session in the first [check_sat], which adds it
    alone and checks once. *)
Theorem construction_creates_and_initializes args c self :
  new c args = Ok self ->
  exists m s,
    base_args c args = [VModel m] /\
    initialize m new_solver = Ok s /\
    dict self !! "solver" = Some (VSolver s) /\
    dict self !! "_asserted_yet" = Some (VBool false) /\
    dict self !! "_status" = Some VNone /\
    forall v f, get_predicate self = Ok v -> cast_bool v = Ok f ->
      dict (check_sat O self).2 !! "solver" =
        Some (VSolver {| assertions := assertions s ++ [f];
                         checks := S (checks s);
                         last_check := Some (decide_sat O (assertions s ++ [f])) |}).
Proof.
  intros H. apply new_inv in H as (m & s & Hb & Hi & _ & _ & Hd).
  assert (Hs : dict self !! "solver" = Some (VSolver s))
    by (rewrite Hd by discriminate; reflexivity).
  assert (Ha : dict self !! "_asserted_yet" = Some (VBool false))
    by (rewrite Hd by discriminate; reflexivity).
  exists m, s. repeat split; try assumption.
  - rewrite Hd by discriminate; reflexivity.
  - intros v f Hv Hf.
    rewrite (check_sat_first _ _ _ _ Hs Ha Hv Hf). simpl.
    rewrite !lookup_insert_ne by discriminate. apply lookup_insert_eq.
Qed.

(** ** Equality of variables *)

(** [Equal] on two variable literals compiles to the comparison of
    their tags. *)
Lemma Equal_get_predicate n k m s :
  initialize m new_solver = Ok s ->
  exists self,
    new Equal [VExpr (variable n); VExpr (variable k); VModel m] = Ok self /\
    dict self !! "solver" = Some (VSolver s) /\
    dict self !! "_asserted_yet" = Some (VBool false) /\
    get_predicate self = Ok (VBool (n =? k)).
Proof.
  intros Hi. eexists. split.
  - unfold new, binary_init. rewrite (AtomicPredicate_init_ok _ _ _ Hi). reflexivity.
  - repeat split.
Qed.

(** What holds of Equal on variables that are literals [variable(n)]:
    with a model whose own constraints the decision procedure finds
    satisfiable, Equal(x,x) is sat; and for any two such variables and
    any session, the conjunction of Equal(x,y) with its negation is
    unsat.  Equal compares the two tags when it is compiled, so the
    formula asserted is a truth value. *)
Theorem Equal_reflexive_and_consistent m s :
  Propositional O ->
  initialize m new_solver = Ok s ->
  (forall n, decide_sat O (assertions s) = sat ->
     exists self,
       new Equal [VExpr (variable n); VExpr (variable n); VModel m] = Ok self /\
       (check_sat O self).1 = Ok (VStatus sat)) /\
  (forall n k, exists self,
       new Equal [VExpr (variable n); VExpr (variable k); VModel m] = Ok self /\
       get_predicate self = Ok (VBool (n =? k)) /\
       forall session,
         query_check_sat O session (QAnd [Atom self; QNot (Atom self)]) = Ok unsat).
Proof.
  intros HO Hi. split.
  - intros n Hsat.
    destruct (Equal_get_predicate n n m s Hi) as (self & Hnew & Hs & Ha & Hp).
    exists self. split; [exact Hnew|].
    rewrite (check_sat_first _ _ _ (BoolVal (n =? n)) Hs Ha Hp eq_refl). simpl.
    rewrite Z.eqb_refl, (decide_true O HO) by reflexivity.
    rewrite Hsat. reflexivity.
  - intros n k.
    destruct (Equal_get_predicate n k m s Hi) as (self & Hnew & Hs & Ha & Hp).
    exists self. split; [exact Hnew|]. split; [exact Hp|].
    intros session. unfold query_check_sat. simpl. rewrite Hp. simpl.
    f_equal.
    apply (decide_false O HO) with
      (f := Z3.And [BoolVal (n =? k); Z3.Not (BoolVal (n =? k))]).
    + apply elem_of_app. right. left.
    + simpl. destruct (n =? k); reflexivity.
Qed.

End Evaluator_methods.

(** The small decision procedure meets what is asked of one. *)
Lemma ground_oracle_propositional : Z3.Propositional Z3.ground_oracle.
Proof.
  split.
  - reflexivity.
  - intros fs f Hf. simpl.
    rewrite existsb_app, forallb_app. simpl. rewrite Hf. simpl.
    rewrite !orb_false_r, !andb_true_r. reflexivity.
  - intros fs f Hin Hf. simpl.
    assert (H : existsb (fun f => bool_decide (Z3.ground_value f = Some false)) fs = true).
    { apply existsb_exists. exists f. split.
      - apply list_elem_of_In, Hin.
      - apply bool_decide_eq_true, Hf. }
    rewrite H. reflexivity.
Qed.

Lemma ground_oracle_no_model_after_unsat : Z3.no_model_after_unsat Z3.ground_oracle.
Proof.
  intros fs. simpl.
  destruct (existsb _ fs); [reflexivity|].
  destruct (forallb _ fs); discriminate.
Qed.

Section Evaluator_runs.

Import Z3 L_to_z3.

Lemma check_sat_memoized_witness :
  (check_sat ground_oracle (initialized_object Top (model_with []) new_solver)).1
  = Ok (VStatus sat).
Proof.
  exact (proj1 (check_sat_memoized ground_oracle
                  (initialized_object Top (model_with []) new_solver)
                  new_solver (VBool true) (BoolVal true)
                  eq_refl eq_refl eq_refl eq_refl)).
Defined.

(** Against C4 as stated: the status is unknown and [get_model] returns
    the candidate model the decision procedure kept. *)
Lemma get_model_returns_after_unknown :
  exists self,
    new Top [VModel (model_with [App "axiom" BoolSort []])] = Ok self /\
    (check_sat ground_oracle self).1 = Ok (VStatus unknown) /\
    (get_model ground_oracle (check_sat ground_oracle self).2).1 = Ok [].
Proof. eexists. repeat split. Qed.

Lemma get_model_defers_to_solver_witness :
  (get_model ground_oracle (initialized_object Bottom (model_with []) new_solver)).1
  = Raise model_not_available.
Proof.
  exact (proj1 (proj2 (proj2 (get_model_defers_to_solver ground_oracle
                  (initialized_object Bottom (model_with []) new_solver)
                  new_solver (VBool false) (BoolVal false)
                  eq_refl eq_refl eq_refl eq_refl))
                ground_oracle_no_model_after_unsat eq_refl)).
Defined.

(** Against C5 as stated: constructing Top made a solver and asserted
    the model's axiom into it. *)
Lemma constructor_initializes_a_solver :
  exists self,
    new Top [VModel (model_with [BoolVal true])] = Ok self /\
    dict self !! "solver" = Some (VSolver (solver_add new_solver (BoolVal true))).
Proof. eexists. split; reflexivity. Qed.

Lemma construction_creates_and_initializes_witness :
  exists m s,
    [VModel (model_with [])] = [VModel m] /\
    initialize m new_solver = Ok s /\
    dict (initialized_object Top (model_with []) new_solver) !! "solver"
      = Some (VSolver s).
Proof.
  destruct (construction_creates_and_initializes ground_oracle
              [VModel (model_with [])] Top
              (initialized_object Top (model_with []) new_solver) eq_refl)
    as (m & s & H1 & H2 & H3 & _).
  exists m, s. auto.
Defined.

(** The input that the docstring of Equal declares, a constant of sort
    Variable: the constructor accepts it and [check_sat] raises. *)
Lemma Equal_on_declared_constant_raises :
  exists self,
    new Equal [VExpr (Const "x" Variable_); VExpr (Const "x" Variable_);
               VModel (model_with [])] = Ok self /\
    (check_sat ground_oracle self).1 = Raise (IndexError "list index out of range").
Proof. eexists. split; reflexivity. Qed.

Lemma Equal_reflexive_and_consistent_witness :
  exists self,
    new Equal [VExpr (variable 7); VExpr (variable 7); VModel (model_with [])]
      = Ok self /\
    (check_sat ground_oracle self).1 = Ok (VStatus sat).
Proof.
  exact (proj1 (Equal_reflexive_and_consistent ground_oracle
                  (model_with []) new_solver
                  ground_oracle_propositional eq_refl) 7 eq_refl).
Defined.

End Evaluator_runs.

(** * Properties of the combinators *)

Section Combinators.

Import Z3 New_engine.

(** Induction over predicates, with the sub-predicates of And and Or
    taken together. *)
Lemma Predicate_induction (P : Predicate -> Prop) :
  P Base ->
  (forall ps, Forall P ps -> P (And ps)) ->
  (forall q, P q -> P (Not q)) ->
  (forall ps, Forall P ps -> P (Or ps)) ->
  (forall id f, P (ModelHasRule id f)) ->
  (forall r s, P (PregraphHas r s)) ->
  (forall r s, P (PostgraphHas r s)) ->
  P Top -> P Bottom ->
  forall p, P p.
Proof.
  intros HB HA HN HO HM HPre HPost HT HBot.
  fix IH 1. intros [ |ps|q|ps|id f|r s|r s| | ].
  - exact HB.
  - apply HA. induction ps as [|q ps IHps]; constructor; [apply IH | exact IHps].
  - apply HN, IH.
  - apply HO. induction ps as [|q ps IHps]; constructor; [apply IH | exact IHps].
  - apply HM.
  - apply HPre.
  - apply HPost.
  - exact HT.
  - exact HBot.
Qed.

(** A call with one argument never enters a body. *)
Lemma _assert_one_argument q a w :
  _assert q [a] w = (Raise arity_error, w).
Proof. destruct q; reflexivity. Qed.

Lemma _assert_arity q args w :
  length args <> 3%nat -> _assert q args w = (Raise arity_error, w).
Proof.
  intros H. destruct args as [|a [|b [|c [|d rest]]]]; simpl in H;
    try congruence; destruct q; reflexivity.
Qed.

Lemma bind_frame {S A B} (m : M S A) (k : A -> M S B) s :
  (m s).2 = s -> (forall a, (k a s).2 = s) -> ((m ≫= k) s).2 = s.
Proof.
  intros Hm Hk. unfold mbind, M_bind.
  destruct (m s) as [[a|e] s1]; simpl in Hm; subst s1; [apply Hk | reflexivity].
Qed.

(** The loop that compiles the sub-predicates of And and Or. *)
Lemma each_frame (F : Predicate -> M world pyval) ps :
  Forall (fun q => forall w, (F q w).2 = w) ps ->
  forall w,
    ((fix each (l : list Predicate) : M world (list pyval) :=
        match l with
        | [] => mret []
        | q :: l => f ← F q; fs ← each l; mret (f :: fs)
        end) ps w).2 = w.
Proof.
  induction 1 as [|q ps Hq _ IH]; intros w; [reflexivity|].
  unfold mbind, M_bind in *. specialize (Hq w).
  destruct (F q w) as [[f|e] w1]; simpl in Hq; subst w1; [|reflexivity].
  specialize (IH w).
  match goal with
  | |- context [?g ps w] => destruct (g ps w) as [[fs|e] w2]
  end; simpl in IH; subst w2; reflexivity.
Qed.

(** Compiling a predicate that reaches no ModelHasRule leaves the
    interpreter state as it was, whatever the arguments and whether or
    not it raises.  For PregraphHas and PostgraphHas this is a fact about
    the values at hand only, over which they raise. *)
Lemma rule_free_frame p :
  rule_free p = true -> forall args w, (_assert p args w).2 = w.
Proof.
  induction p as [|ps IH|q IH|ps IH|id f|r s|r s| | ] using Predicate_induction;
    intros Hp args w;
    destruct (decide (length args = 3%nat)) as [Hlen|Hlen];
    try (rewrite _assert_arity by exact Hlen; reflexivity);
    destruct args as [|a [|b [|c [|d rest]]]]; try discriminate; clear Hlen;
    try discriminate Hp; try reflexivity.
  - (* And *)
    simpl in Hp. simpl. apply bind_frame; [|reflexivity].
    apply (each_frame (fun q => _assert q [a; b; c])).
    rewrite Forall_forall in IH |- *. intros q Hq w'.
    apply IH; [exact Hq|].
    rewrite forallb_forall in Hp. apply Hp, list_elem_of_In, Hq.
  - (* Not *)
    simpl in Hp. simpl. apply bind_frame; [|reflexivity].
    apply IH, Hp.
  - (* Or *)
    simpl in Hp. simpl. apply bind_frame; [|reflexivity].
    apply (each_frame (fun q => _assert q [a; b; c])).
    rewrite Forall_forall in IH |- *. intros q Hq w'.
    apply IH; [exact Hq|].
    rewrite forallb_forall in Hp. apply Hp, list_elem_of_In, Hq.
  - (* PregraphHas *)
    simpl. destruct s; try reflexivity.
    unfold mbind, M_bind, lift.
    destruct (accessor_call Rule_pregraph r); [|reflexivity].
    rewrite _assert_one_argument. reflexivity.
  - (* PostgraphHas *)
    simpl. destruct s; try reflexivity.
    unfold mbind, M_bind, lift.
    destruct (accessor_call Rule_postgraph r); [|reflexivity].
    rewrite _assert_one_argument. reflexivity.
Qed.

(** ** Trees of truth values and connectives *)

Lemma ground_value_And {A} (T : A -> bool) qs fs :
  Forall2 (fun q f => ground_value f = Some (T q)) qs fs ->
  ground_value (Z3.And fs) = Some (forallb T qs).
Proof.
  induction 1 as [|q f qs fs Hf _ IH]; [reflexivity|].
  simpl in *. rewrite Hf, IH. reflexivity.
Qed.

Lemma ground_value_Or {A} (T : A -> bool) qs fs :
  Forall2 (fun q f => ground_value f = Some (T q)) qs fs ->
  ground_value (Z3.Or fs) = Some (existsb T qs).
Proof.
  induction 1 as [|q f qs fs Hf _ IH]; [reflexivity|].
  simpl in *. rewrite Hf, IH. reflexivity.
Qed.

Lemma each_compiles (F : Predicate -> M world pyval) (T : Predicate -> bool) ps :
  Forall (fun q => forall w, exists f,
            F q w = (Ok (PExpr f), w) /\ sort_of f = BoolSort /\
            ground_value f = Some (T q)) ps ->
  forall w, exists fs,
    (fix each (l : list Predicate) : M world (list pyval) :=
       match l with
       | [] => mret []
       | q :: l => f ← F q; fs ← each l; mret (f :: fs)
       end) ps w = (Ok (PExpr <$> fs), w) /\
    coerce_all (PExpr <$> fs) = Ok fs /\
    Forall2 (fun q f => ground_value f = Some (T q)) ps fs.
Proof.
  induction 1 as [|q ps Hq _ IH]; intros w.
  - exists []. repeat split. constructor.
  - destruct (Hq w) as (f & Hf & Hsort & Hval).
    destruct (IH w) as (fs & Hfs & Hco & Hall).
    exists (f :: fs). split; [|split].
    + unfold mbind, M_bind in *. rewrite Hf, Hfs. reflexivity.
    + simpl. rewrite Hsort. simpl. unfold fmap in Hco. rewrite Hco. reflexivity.
    + constructor; assumption.
Qed.

(** A tree of Top, Bottom, And, Or and Not compiles, to a formula whose
    value is the tree's, and the interpreter state stays as it was. *)
Lemma boolean_tree_compiles p :
  boolean_tree p = true ->
  forall a b c w, exists f,
    _assert p [a; b; c] w = (Ok (PExpr f), w) /\ sort_of f = BoolSort /\
    ground_value f = Some (truth p).
Proof.
  induction p as [|ps IH|q IH|ps IH|id f|r s|r s| | ] using Predicate_induction;
    intros Hp a b c w; try discriminate Hp.
  - (* And *)
    simpl in Hp.
    destruct (each_compiles (fun q => _assert q [a; b; c]) truth ps) with (w := w)
      as (fs & Hfs & Hco & Hall).
    { rewrite Forall_forall in IH |- *. intros q Hq w'.
      apply IH; [exact Hq|].
      rewrite forallb_forall in Hp. apply Hp, list_elem_of_In, Hq. }
    exists (Z3.And fs). split; [|split; [reflexivity|]].
    + simpl. unfold mbind at 1, M_bind at 1. simpl in Hfs. rewrite Hfs.
      unfold lift, z3_And. rewrite Hco. reflexivity.
    + apply (ground_value_And truth), Hall.
  - (* Not *)
    simpl in Hp. destruct (IH Hp a b c w) as (f & Hf & Hsort & Hval).
    exists (Z3.Not f). split; [|split; [reflexivity|]].
    + simpl. unfold mbind, M_bind. rewrite Hf.
      unfold lift, z3_Not. simpl. rewrite Hsort. reflexivity.
    + simpl. rewrite Hval. reflexivity.
  - (* Or *)
    simpl in Hp.
    destruct (each_compiles (fun q => _assert q [a; b; c]) truth ps) with (w := w)
      as (fs & Hfs & Hco & Hall).
    { rewrite Forall_forall in IH |- *. intros q Hq w'.
      apply IH; [exact Hq|].
      rewrite forallb_forall in Hp. apply Hp, list_elem_of_In, Hq. }
    exists (Z3.Or fs). split; [|split; [reflexivity|]].
    + simpl. unfold mbind at 1, M_bind at 1. simpl in Hfs. rewrite Hfs.
      unfold lift, z3_Or. rewrite Hco. reflexivity.
    + apply (ground_value_Or truth), Hall.
  - (* Top *)
    exists (Z3.Or [BoolVal true]). repeat split.
  - (* Bottom *)
    exists (Z3.And [BoolVal false]). repeat split.
Qed.

(** C7.  For a tree built from Top, Bottom, And, Or and Not only, And
    and Or of any arity, checkSat on a new evaluator answers sat when
    direct boolean evaluation of the tree gives true and unsat when it
    gives false, with a decision procedure that sees through truth
    values and connectives. *)
Theorem checkSat_matches_boolean_evaluation O p model_variable si ni w :
  Propositional O ->
  boolean_tree p = true ->
  exists ev,
    checkSat O model_variable si ni (new_evaluator p) w
    = (Ok (Some (if truth p then sat else unsat), ev), w).
Proof.
  intros HO Hp.
  destruct (boolean_tree_compiles p Hp model_variable si ni w)
    as (f & Hf & Hsort & Hval).
  assert (Hd : decide_sat O [f] = if truth p then sat else unsat).
  { change (decide_sat O ([] ++ [f]) = if truth p then sat else unsat).
    destruct (truth p).
    - rewrite (decide_true O HO) by exact Hval. apply (decide_nil O HO).
    - apply (decide_false O HO) with (f := f); [left | exact Hval]. }
  eexists. unfold checkSat, get_predicate. simpl.
  unfold mbind, M_bind. rewrite Hf. simpl.
  unfold lift. simpl. rewrite Hsort. simpl.
  unfold mret, M_ret. rewrite Hd. reflexivity.
Qed.

(** ** The quantifier over rules *)

(** Compilation of a ModelHasRule up to the call of its function. *)
Lemma ModelHasRule_assert_unfold id f mf a b w :
  domain mf = [Rule] ->
  _assert (ModelHasRule id (PLambda f)) [PFunc mf; a; b] w =
    match f (FreshConst (rule_counter w) Rule) (after_new_rule id w) with
    | (Ok (PPred q), w') => (Raise arity_error, w')
    | (Ok _, w') => (Raise (AttributeError "_assert"), w')
    | (Raise e, w') => (Raise e, w')
    end.
Proof.
  intros Hdom. simpl.
  unfold mbind, M_bind, new_rule, set_rule_variable, get_rule_variable, py_call,
    lift, after_new_rule.
  repeat (simpl; rewrite ?lookup_insert_eq).
  unfold apply. rewrite Hdom. simpl.
  match goal with
  | |- context [f ?r ?w0] => destruct (f r w0) as [[v|e] w']
  end; [|reflexivity].
  destruct v; try reflexivity.
  rewrite _assert_one_argument. reflexivity.
Qed.

(** C2.  Compiling a ModelHasRule does not produce the existential
    formula: whenever the rule function returns a predicate, the
    compilation raises TypeError, because [_assert] of the returned
    predicate is called with the model alone while every [_assert]
    takes the model and the two interners. *)
Theorem ModelHasRule_compilation_raises id f mf string_interner node_interner w :
  domain mf = [Rule] ->
  (forall r w1, exists q w2, f r w1 = (Ok (PPred q), w2)) ->
  (get_predicate (ModelHasRule id (PLambda f)) (PFunc mf)
     string_interner node_interner w).1
  = Raise arity_error.
Proof.
  intros Hdom Hf. unfold get_predicate.
  unfold mbind, M_bind. rewrite ModelHasRule_assert_unfold by exact Hdom.
  destruct (Hf (FreshConst (rule_counter w) Rule) (after_new_rule id w))
    as (q & w2 & ->).
  reflexivity.
Qed.

(** ** What compilation writes *)

Lemma boolean_tree_rule_free p :
  boolean_tree p = true -> rule_free p = true.
Proof.
  induction p as [|ps IH|q IH|ps IH|id f|r s|r s| | ] using Predicate_induction;
    simpl; try discriminate; try reflexivity; try exact IH.
  - intros H. rewrite forallb_forall in H |- *. intros q Hq.
    rewrite Forall_forall in IH.
    apply IH; [apply list_elem_of_In, Hq | apply H, Hq].
  - intros H. rewrite forallb_forall in H |- *. intros q Hq.
    rewrite Forall_forall in IH.
    apply IH; [apply list_elem_of_In, Hq | apply H, Hq].
Qed.

(** C9, as the code has it.  Compiling a predicate built from Top,
    Bottom, And, Or and Not leaves every attribute and the global counter
    as they were, whatever the arguments and however often it is done.
    Compiling a ModelHasRule assigns a new rule to the node's
    [rule_variable] and advances the counter behind [new_rule], every
    time.  (PregraphHas and PostgraphHas compile by the [_assert] of the
    structure they hold; nothing is said of them.) *)
Theorem compilation_writes_only_rule_variable :
  (forall p args w, boolean_tree p = true -> (_assert p args w).2 = w) /\
  (forall id f mf a b w,
     domain mf = [Rule] ->
     (forall r w1, (f r w1).2 = w1) ->
     (_assert (ModelHasRule id (PLambda f)) [PFunc mf; a; b] w).2
     = after_new_rule id w).
Proof.
  split.
  - intros p args w Hp. apply rule_free_frame, boolean_tree_rule_free, Hp.
  - intros id f mf a b w Hdom Hf.
    rewrite ModelHasRule_assert_unfold by exact Hdom.
    specialize (Hf (FreshConst (rule_counter w) Rule) (after_new_rule id w)).
    destruct (f (FreshConst (rule_counter w) Rule) (after_new_rule id w))
      as [[v|e] w']; simpl in Hf; subst w'; [|reflexivity].
    destruct v; reflexivity.
Qed.

(** ** Validation of combinator arguments *)

Lemma ensure_all_rejects thing before after :
  (forall p, thing <> PPred p) ->
  exists msg, ensure_all (before ++ thing :: after) = Raise (ValueError msg).
Proof.
  intros Hthing. induction before as [|v before [msg IH]]; simpl.
  - destruct thing; try (eexists; reflexivity). destruct (Hthing p eq_refl).
  - destruct v; try (eexists; reflexivity).
    simpl. rewrite IH. eexists; reflexivity.
Qed.

(** C6, as the code has it.  And, Or and Not reject an argument that is
    not a Predicate in their constructor, with ValueError.  ModelHasRule,
    PregraphHas and PostgraphHas store what they are given: their
    constructors accept any argument and cannot fail. *)
Theorem combinator_argument_validation thing :
  (forall p, thing <> PPred p) ->
  (forall before after,
     exists msg, And_init (before ++ thing :: after) = Raise (ValueError msg)) /\
  (forall before after,
     exists msg, Or_init (before ++ thing :: after) = Raise (ValueError msg)) /\
  (exists msg, Not_init thing = Raise (ValueError msg)) /\
  (forall other,
     PregraphHas_init thing other = Ok (PregraphHas thing other) /\
     PregraphHas_init other thing = Ok (PregraphHas other thing) /\
     PostgraphHas_init thing other = Ok (PostgraphHas thing other) /\
     PostgraphHas_init other thing = Ok (PostgraphHas other thing)) /\
  (forall w, (ModelHasRule_init thing w).1 = Ok (ModelHasRule (next_id w) thing)).
Proof.
  intros Hthing. repeat split.
  - intros before after.
    destruct (ensure_all_rejects thing before after Hthing) as [msg H].
    exists msg. unfold And_init. rewrite H. reflexivity.
  - intros before after.
    destruct (ensure_all_rejects thing before after Hthing) as [msg H].
    exists msg. unfold Or_init. rewrite H. reflexivity.
  - unfold Not_init.
    destruct thing; try (eexists; reflexivity). destruct (Hthing p eq_refl).
Qed.

End Combinators.

Section Combinator_runs.

Import Z3 New_engine.

Lemma ModelHasRule_compilation_raises_witness :
  (get_predicate (ModelHasRule 0%nat always_top) model_function PNone PNone empty_world).1
  = Raise arity_error.
Proof.
  apply (ModelHasRule_compilation_raises 0%nat (fun _ w => (Ok (PPred Top), w))
           (Function "model" [Rule] BoolSort) PNone PNone empty_world).
  - reflexivity.
  - intros r w1. exists Top, w1. reflexivity.
Defined.

Lemma checkSat_matches_boolean_evaluation_witness :
  exists ev,
    checkSat ground_oracle model_function PNone PNone
      (new_evaluator (And [Top; Not Bottom; Or [Bottom; Top]; And []])) empty_world
    = (Ok (Some sat, ev), empty_world).
Proof.
  exact (checkSat_matches_boolean_evaluation ground_oracle
           (And [Top; Not Bottom; Or [Bottom; Top]; And []])
           model_function PNone PNone empty_world
           ground_oracle_propositional eq_refl).
Defined.

(** Against C9 as stated: compiling a ModelHasRule node changes its
    [rule_variable], from None to one rule and then to another. *)
Lemma ModelHasRule_compilation_assigns_rule_variable :
  exists p w,
    ModelHasRule_init always_top empty_world = (Ok p, w) /\
    rule_variable w !! 0%nat = Some None /\
    let w1 := (get_predicate p model_function PNone PNone w).2 in
    rule_variable w1 !! 0%nat = Some (Some (FreshConst 0%nat Rule)) /\
    let w2 := (get_predicate p model_function PNone PNone w1).2 in
    rule_variable w2 !! 0%nat = Some (Some (FreshConst 1%nat Rule)).
Proof. eexists _, _. split; [reflexivity|]. repeat split. Qed.

Lemma compilation_writes_only_rule_variable_witness :
  (_assert (And [Top; Not Bottom]) [model_function; PNone; PNone] empty_world).2
  = empty_world /\
  (_assert (ModelHasRule 0%nat always_top) [model_function; PNone; PNone] empty_world).2
  = after_new_rule 0%nat empty_world.
Proof.
  split.
  - apply (proj1 compilation_writes_only_rule_variable). reflexivity.
  - apply (proj2 compilation_writes_only_rule_variable 0%nat
             (fun _ w => (Ok (PPred Top), w)) (Function "model" [Rule] BoolSort));
      [reflexivity | intros; reflexivity].
Defined.

(** Against C6 as stated: the three constructors accept an argument
    that is no Predicate, and no function either. *)
Lemma unvalidated_constructors_accept_anything :
  PregraphHas_init PNone (PInt 5) = Ok (PregraphHas PNone (PInt 5)) /\
  PostgraphHas_init PNone (PInt 5) = Ok (PostgraphHas PNone (PInt 5)) /\
  (ModelHasRule_init (PInt 5) empty_world).1 = Ok (ModelHasRule 0%nat (PInt 5)).
Proof. repeat split. Qed.

Lemma combinator_argument_validation_witness :
  exists msg, Not_init (PInt 5) = Raise (ValueError msg).
Proof.
  exact (proj1 (proj2 (proj2 (combinator_argument_validation (PInt 5)
                                ltac:(discriminate))))).
Defined.

End Combinator_runs.

(** * Further properties of the atomic predicates *)

Section Atomic_predicate_behaviour.

Import Z3 L_to_z3.

(** ** Reading a tag *)

(** X1.  [z3_accessor] with [get_varname] returns a tag exactly on an
    expression of sort Variable whose first child is an integer numeral,
    as in [variable(n)]; that numeral is the tag.  On anything else, a
    declared constant or a Python value that is no expression included,
    it raises. *)
Theorem z3_accessor_get_varname_iff v n :
  z3_accessor get_varname v = Ok n <->
  exists e rest,
    v = VExpr e /\ sort_of e = Variable_ /\ children e = IntVal n :: rest.
Proof.
  split.
  - unfold z3_accessor, call, apply. destruct v as [| | | |e| | | |];
      simpl; try discriminate;
      try (destruct (decide _); discriminate).
    destruct (decide ([sort_of e] = [Variable_])) as [Hs|Hs]; simpl;
      [|discriminate].
    injection Hs as Hs.
    destruct (children e) as [|c rest] eqn:Hc; simpl; [discriminate|].
    destruct c; simpl; try discriminate.
    intros [= ->]. eauto.
  - intros (e & rest & -> & Hs & Hc).
    unfold z3_accessor, call, apply. simpl. rewrite Hs. simpl.
    rewrite Hc. reflexivity.
Qed.

(** The tag written into a variable literal is the tag read back. *)
Lemma z3_accessor_variable n :
  z3_accessor get_varname (VExpr (variable n)) = Ok n.
Proof. reflexivity. Qed.

(** ** ensure_variable *)

(** X2.  [ensure_variable] accepts exactly the z3 expressions of sort
    Variable, and whatever it rejects it rejects with the one ValueError:
    the AttributeError of a value without [sort()] and the failed
    assertion never get out. *)
Theorem ensure_variable_accepts_iff v :
  (ensure_variable v = Ok tt <-> exists e, v = VExpr e /\ sort_of e = Variable_) /\
  (forall err, ensure_variable v = Raise err ->
     err = ValueError ensure_variable_msg).
Proof.
  rewrite ensure_variable_spec. split; [split|].
  - destruct v; simpl; try discriminate.
    destruct (bool_decide (sort_of e = Variable_)) eqn:H; [|discriminate].
    apply bool_decide_eq_true in H. eauto.
  - intros (e & -> & H). simpl. rewrite bool_decide_eq_true_2 by exact H.
    reflexivity.
  - intros err. destruct (is_variable v); [discriminate|]. congruence.
Qed.

(** ** What a constructor stores *)

(** X3.  With Variable-sorted arguments and a model that initializes, every
    constructor returns, and the object gives back what it was built
    from: the class, the model under [graphactionpair], the Variables
    under [x] and [y], and the solver as [initialize] left it. *)
Theorem new_stores_arguments c xs m s :
  Forall (fun v => is_variable v = true) xs ->
  length xs = variable_arity c ->
  c <> Labeled ->
  initialize m new_solver = Ok s ->
  exists self,
    new c (xs ++ [VModel m]) = Ok self /\
    class self = c /\
    getattr "graphactionpair" self = Ok (VModel m) /\
    getattr "solver" self = Ok (VSolver s) /\
    (forall x, xs !! 0%nat = Some x -> getattr "x" self = Ok x) /\
    (forall y, xs !! 1%nat = Some y -> getattr "y" self = Ok y).
Proof.
  intros Hxs Hlen Hc Hi.
  destruct c; try congruence; simpl in Hlen;
    destruct xs as [|x [|y [|? ?]]]; try discriminate; clear Hlen;
    cbn [app]; unfold new, binary_init, unary_init;
    rewrite (AtomicPredicate_init_ok _ _ _ Hi); simpl;
    rewrite ?ensure_variable_spec;
    repeat match goal with
      | H : Forall _ (_ :: _) |- _ => inversion H as [|? ? ?Hv ?Hr]; subst; clear H
      end;
    repeat match goal with
      | H : is_variable _ = true |- _ => rewrite H; clear H; simpl
      end;
    eexists; (split; [reflexivity|]);
    repeat split; try (intros ? [= <-]; reflexivity); intros ? [=].
Qed.

Lemma new_stores_arguments_witness :
  exists self,
    new DoLink ([VExpr (variable 1); VExpr (variable 2)] ++ [VModel (model_with [])])
      = Ok self /\
    getattr "y" self = Ok (VExpr (variable 2)).
Proof.
  destruct (new_stores_arguments DoLink [VExpr (variable 1); VExpr (variable 2)]
              (model_with []) new_solver
              ltac:(repeat constructor) eq_refl ltac:(discriminate) eq_refl)
    as (self & H1 & _ & _ & _ & _ & H6).
  exists self. split; [exact H1 | apply H6; reflexivity].
Defined.

(** X4.  Labeled checks its Variable and stores the label as given, whatever
    it is. *)
Theorem Labeled_stores_any_label x label m s :
  is_variable x = true ->
  initialize m new_solver = Ok s ->
  exists self,
    new Labeled [x; label; VModel m] = Ok self /\
    getattr "x" self = Ok x /\
    getattr "label" self = Ok label /\
    getattr "graphactionpair" self = Ok (VModel m).
Proof.
  intros Hx Hi. unfold new, Labeled_init.
  rewrite (AtomicPredicate_init_ok _ _ _ Hi). simpl.
  rewrite ensure_variable_spec, Hx. simpl.
  eexists. repeat split.
Qed.

Lemma Labeled_stores_any_label_witness :
  exists self,
    new Labeled [VExpr (variable 1); VNone; VModel (model_with [])] = Ok self /\
    getattr "label" self = Ok VNone.
Proof.
  destruct (Labeled_stores_any_label (VExpr (variable 1)) VNone (model_with [])
              new_solver eq_refl eq_refl) as (self & H1 & _ & H3 & _).
  exists self. auto.
Defined.

(** ** Labeled *)

(** X5.  No Labeled object compiles.  [get_predicate] reads the label with
    [z3_accessor], which takes the second child down from the accessor
    application: that is the Variable [x] itself, and a Variable is no
    integer numeral. *)
Theorem Labeled_get_predicate_raises args self :
  new Labeled args = Ok self ->
  get_predicate self = Raise (AttributeError "as_long").
Proof.
  intros H. apply Labeled_init_inv in H as (x & label & m & s & -> & Hi & Hx & ->).
  destruct x as [| | | |ex| | | |]; try discriminate.
  simpl in Hx. apply bool_decide_eq_true in Hx.
  unfold get_predicate, interpretation_of, getattr. simpl.
  repeat (rewrite lookup_insert_eq || rewrite lookup_insert_ne by discriminate;
          simpl).
  unfold apply. simpl. rewrite Hx. simpl.
  destruct ex; try discriminate; reflexivity.
Qed.

Lemma Labeled_get_predicate_raises_witness :
  exists self,
    new Labeled [VExpr (variable 1); VInt 3; VModel (model_with [])] = Ok self /\
    get_predicate self = Raise (AttributeError "as_long").
Proof.
  eexists. split; [reflexivity|].
  apply (Labeled_get_predicate_raises
           [VExpr (variable 1); VInt 3; VModel (model_with [])]).
  reflexivity.
Defined.

End Atomic_predicate_behaviour.

(** * Further properties of the evaluator methods *)

Section Evaluator_behaviour.

Import Z3 L_to_z3.

Context (O : Oracle).

(** ** When compilation fails *)

Lemma _assert_over_compile_fails self s e :
  dict self !! "solver" = Some (VSolver s) ->
  get_predicate self = Raise e ->
  _assert_over O self = (Raise e, self).
Proof.
  intros Hs He. unfold _assert_over.
  rewrite (bind_ok _ _ _ _ _ (attr_solver_ok _ _ Hs)).
  unfold mbind, M_bind. rewrite He. reflexivity.
Qed.

Lemma check_sat_compile_fails self s e :
  dict self !! "solver" = Some (VSolver s) ->
  dict self !! "_asserted_yet" = Some (VBool false) ->
  get_predicate self = Raise e ->
  check_sat O self = (Raise e, self).
Proof.
  intros Hs Ha He. unfold check_sat.
  rewrite (bind_ok _ _ _ _ _ (attr_ok _ _ _ Ha)). simpl.
  unfold mbind, M_bind. rewrite (_assert_over_compile_fails _ _ _ Hs He).
  reflexivity.
Qed.

Lemma get_model_compile_fails self s e :
  dict self !! "solver" = Some (VSolver s) ->
  dict self !! "_asserted_yet" = Some (VBool false) ->
  get_predicate self = Raise e ->
  get_model O self = (Raise e, self).
Proof.
  intros Hs Ha He. unfold get_model.
  rewrite (bind_ok _ _ _ _ _ (attr_ok _ _ _ Ha)). simpl.
  unfold mbind, M_bind. rewrite (_assert_over_compile_fails _ _ _ Hs He).
  reflexivity.
Qed.

(** X6.  When [get_predicate] raises, [check_sat] and [get_model] raise the
    same exception and leave the object as it was: nothing is asserted,
    nothing is checked, the flag stays down, and a later call starts
    over. *)
Theorem failed_compilation_changes_nothing self s e :
  dict self !! "solver" = Some (VSolver s) ->
  dict self !! "_asserted_yet" = Some (VBool false) ->
  get_predicate self = Raise e ->
  check_sat O self = (Raise e, self) /\
  get_model O self = (Raise e, self).
Proof.
  intros Hs Ha He. split.
  - exact (check_sat_compile_fails _ _ _ Hs Ha He).
  - exact (get_model_compile_fails _ _ _ Hs Ha He).
Qed.

(** X7.  The classes without a [get_predicate] of their own --
    AtomicPredicate itself, Add and Rem -- construct like any other, and
    checking them raises NotImplementedError, every time. *)
Theorem unimplemented_predicates_raise c m s :
  c = AtomicPredicate \/ c = Add \/ c = Rem ->
  initialize m new_solver = Ok s ->
  exists self,
    new c [VModel m] = Ok self /\
    check_sat O self =
      (Raise (NotImplementedError "Implement get_predicate in subclasses."), self) /\
    get_model O self =
      (Raise (NotImplementedError "Implement get_predicate in subclasses."), self).
Proof.
  intros Hc Hi. exists (initialized_object c m s).
  assert (Hnew : new c [VModel m] = Ok (initialized_object c m s)).
  { destruct Hc as [->|[->| ->]]; apply AtomicPredicate_init_ok, Hi. }
  assert (Hp : get_predicate (initialized_object c m s) =
               Raise (NotImplementedError "Implement get_predicate in subclasses.")).
  { destruct Hc as [->|[->| ->]]; reflexivity. }
  split; [exact Hnew|]. split.
  - apply (check_sat_compile_fails _ s); [reflexivity | reflexivity | exact Hp].
  - apply (get_model_compile_fails _ s); [reflexivity | reflexivity | exact Hp].
Qed.

(** ** The status of Top, Bottom and Equal *)

(** X8.  With a decision procedure that sees through truth values, Top adds
    nothing to the model's own constraints -- its status is theirs --
    and Bottom is unsat on every model. *)
Theorem Top_and_Bottom_status m s :
  Propositional O ->
  initialize m new_solver = Ok s ->
  (exists self,
     new Top [VModel m] = Ok self /\
     (check_sat O self).1 = Ok (VStatus (decide_sat O (assertions s)))) /\
  (exists self,
     new Bottom [VModel m] = Ok self /\
     (check_sat O self).1 = Ok (VStatus unsat)).
Proof.
  intros HO Hi. split.
  - exists (initialized_object Top m s). split.
    + apply AtomicPredicate_init_ok, Hi.
    + rewrite (check_sat_first O _ s (VBool true) (BoolVal true))
        by reflexivity.
      simpl. rewrite (decide_true O HO) by reflexivity. reflexivity.
  - exists (initialized_object Bottom m s). split.
    + apply AtomicPredicate_init_ok, Hi.
    + rewrite (check_sat_first O _ s (VBool false) (BoolVal false))
        by reflexivity.
      simpl. f_equal. f_equal.
      apply (decide_false O HO) with (f := BoolVal false); [|reflexivity].
      apply elem_of_app. right. left.
Qed.

(** X9.  Equal on two variable literals is decided by the tags alone: with
    different tags it is unsat on every model, with equal tags its status
    is that of the model's own constraints; and the order of the two
    arguments does not matter. *)
Theorem Equal_status n k m s :
  Propositional O ->
  initialize m new_solver = Ok s ->
  exists self swapped,
    new Equal [VExpr (variable n); VExpr (variable k); VModel m] = Ok self /\
    new Equal [VExpr (variable k); VExpr (variable n); VModel m] = Ok swapped /\
    (check_sat O self).1 =
      Ok (VStatus (if n =? k then decide_sat O (assertions s) else unsat)) /\
    (check_sat O swapped).1 = (check_sat O self).1.
Proof.
  intros HO Hi.
  destruct (Equal_get_predicate n k m s Hi) as (self & Hnew & Hs & Ha & Hp).
  destruct (Equal_get_predicate k n m s Hi) as (self' & Hnew' & Hs' & Ha' & Hp').
  exists self, self'. split; [exact Hnew|]. split; [exact Hnew'|].
  rewrite (check_sat_first O _ _ _ (BoolVal (n =? k)) Hs Ha Hp eq_refl).
  rewrite (check_sat_first O _ _ _ (BoolVal (k =? n)) Hs' Ha' Hp' eq_refl).
  simpl. rewrite (Z.eqb_sym k n). split; [|reflexivity].
  f_equal. f_equal. destruct (n =? k).
  - apply (decide_true O HO). reflexivity.
  - apply (decide_false O HO) with (f := BoolVal false); [|reflexivity].
    apply elem_of_app. right. left.
Qed.

(** X10.  Equal does not compile on an argument without children, such as a
    declared constant of sort Variable, in either position: the
    constructor accepts it and [get_predicate] raises IndexError. *)
Theorem Equal_on_childless_argument x y m s :
  is_variable x = true -> is_variable y = true ->
  initialize m new_solver = Ok s ->
  (exists e, x = VExpr e /\ children e = []) \/
  ((exists n, x = VExpr (variable n)) /\ exists e, y = VExpr e /\ children e = []) ->
  exists self,
    new Equal [x; y; VModel m] = Ok self /\
    get_predicate self = Raise (IndexError "list index out of range").
Proof.
  intros Hx Hy Hi Hch.
  exists (setattr "y" y (setattr "x" x (initialized_object Equal m s))). split.
  - unfold new, binary_init. rewrite (AtomicPredicate_init_ok _ _ _ Hi). simpl.
    rewrite !ensure_variable_spec, Hx, Hy. reflexivity.
  - unfold get_predicate, getattr. simpl.
    repeat (rewrite lookup_insert_eq || rewrite lookup_insert_ne by discriminate;
            simpl).
    destruct Hch as [(e & -> & He) | ((n & ->) & e & -> & He)].
    + simpl in Hx. apply bool_decide_eq_true in Hx.
      unfold z3_accessor, call, apply. simpl. rewrite Hx. simpl. rewrite He.
      reflexivity.
    + simpl in Hy. apply bool_decide_eq_true in Hy.
      rewrite z3_accessor_variable. simpl.
      unfold z3_accessor, call, apply. simpl. rewrite Hy. simpl. rewrite He.
      reflexivity.
Qed.

(** ** How the two methods compose *)

(** X11.  [get_model] asserts like [check_sat] does, also when it then raises
    for want of a model: afterwards the formula is in the session once,
    and [check_sat] answers the cached status without touching the
    object. *)
Theorem get_model_then_check_sat self s v f :
  dict self !! "solver" = Some (VSolver s) ->
  dict self !! "_asserted_yet" = Some (VBool false) ->
  get_predicate self = Ok v ->
  cast_bool v = Ok f ->
  let self' := (get_model O self).2 in
  dict self' !! "solver" = Some (VSolver (checked O s f)) /\
  check_sat O self' = (Ok (VStatus (decide_sat O (assertions s ++ [f]))), self') /\
  (check_sat O self).2 = self'.
Proof.
  intros Hs Ha Hv Hf self'. subst self'.
  rewrite (get_model_first O _ _ _ _ Hs Ha Hv Hf).
  rewrite (check_sat_first O _ _ _ _ Hs Ha Hv Hf). simpl.
  split; [|split; [|reflexivity]].
  - rewrite !lookup_insert_ne by discriminate. apply lookup_insert_eq.
  - rewrite check_sat_cached by apply lookup_insert_eq.
    unfold getattr. simpl.
    rewrite lookup_insert_ne by discriminate. rewrite lookup_insert_eq.
    reflexivity.
Qed.

(** ** What the methods write *)

(** [_assert_over] either leaves the object as it found it, or completes
    all four assignments. *)
Lemma _assert_over_cases self :
  (_assert_over O self).2 = self \/
  exists s v f,
    dict self !! "solver" = Some (VSolver s) /\
    get_predicate self = Ok v /\ cast_bool v = Ok f /\
    _assert_over O self = (Ok tt, assert_over_leaves O self s f).
Proof.
  destruct (dict self !! "solver") as [[| | | | | |s| |]|] eqn:Hs;
    try (left; unfold _assert_over, attr_solver, attr, getattr, throw,
           mbind, M_bind, mret, M_ret; rewrite Hs; reflexivity).
  destruct (get_predicate self) as [v|e] eqn:Hv.
  - destruct (cast_bool v) as [f|e] eqn:Hf.
    + right. exists s, v, f. repeat split; try assumption.
      apply (_assert_over_ok O _ _ v); assumption.
    + left. unfold _assert_over.
      rewrite (bind_ok _ _ _ _ _ (attr_solver_ok _ _ Hs)).
      unfold mbind, M_bind, lift. rewrite Hv, Hf. reflexivity.
  - left. rewrite (_assert_over_compile_fails _ _ _ Hs Hv). reflexivity.
Qed.

Lemma attr_frame name (self : object) : (attr name self).2 = self.
Proof. reflexivity. Qed.

Lemma attr_missing name self :
  dict self !! name = None -> attr name self = (Raise (AttributeError name), self).
Proof. intros H. unfold attr, getattr. rewrite H. reflexivity. Qed.

Lemma bind_raise {S A B} (m : M S A) (k : A -> M S B) s e s' :
  m s = (Raise e, s') -> (m ≫= k) s = (Raise e, s').
Proof. intros H. unfold mbind, M_bind. rewrite H. reflexivity. Qed.

Lemma check_sat_cases self :
  (check_sat O self).2 = self \/
  exists s v f,
    dict self !! "solver" = Some (VSolver s) /\
    get_predicate self = Ok v /\ cast_bool v = Ok f /\
    (check_sat O self).2 = assert_over_leaves O self s f.
Proof.
  unfold check_sat.
  destruct (dict self !! "_asserted_yet") as [a|] eqn:Ha.
  - rewrite (bind_ok _ _ _ _ _ (attr_ok _ _ _ Ha)).
    destruct (truthy a); cbn [negb].
    + left. apply bind_frame; [reflexivity|]. intros _. apply attr_frame.
    + destruct (_assert_over_cases self) as [H|(s & v & f & Hs & Hv & Hf & H)].
      * left. apply bind_frame; [exact H|]. intros _. apply attr_frame.
      * right. exists s, v, f. repeat split; try assumption.
        rewrite (bind_ok _ _ _ _ _ H). apply attr_frame.
  - left. rewrite (bind_raise _ _ _ _ _ (attr_missing _ _ Ha)). reflexivity.
Qed.

Lemma get_model_cases self :
  (get_model O self).2 = self \/
  exists s v f,
    dict self !! "solver" = Some (VSolver s) /\
    get_predicate self = Ok v /\ cast_bool v = Ok f /\
    (get_model O self).2 = assert_over_leaves O self s f.
Proof.
  assert (Htail : forall o : object,
            ((attr_solver ≫= fun s => lift (solver_model O s)) o).2 = o).
  { intros o. unfold attr_solver, attr, getattr, lift, throw, mbind, M_bind,
      mret, M_ret.
    destruct (dict o !! "solver") as [[]|]; reflexivity. }
  unfold get_model.
  destruct (dict self !! "_asserted_yet") as [a|] eqn:Ha.
  - rewrite (bind_ok _ _ _ _ _ (attr_ok _ _ _ Ha)).
    destruct (truthy a); cbn [negb].
    + left. apply bind_frame; [reflexivity|]. intros _. apply Htail.
    + destruct (_assert_over_cases self) as [H|(s & v & f & Hs & Hv & Hf & H)].
      * left. apply bind_frame; [exact H|]. intros _. apply Htail.
      * right. exists s, v, f. repeat split; try assumption.
        rewrite (bind_ok _ _ _ _ _ H). apply Htail.
  - left. rewrite (bind_raise _ _ _ _ _ (attr_missing _ _ Ha)). reflexivity.
Qed.

Lemma assert_over_leaves_frame self s f name :
  evaluator_attribute name = false ->
  dict (assert_over_leaves O self s f) !! name = dict self !! name.
Proof.
  unfold evaluator_attribute. intros H.
  apply orb_false_elim in H as [H H3]. apply orb_false_elim in H as [H1 H2].
  apply bool_decide_eq_false in H1, H2, H3.
  simpl. rewrite !lookup_insert_ne by congruence. reflexivity.
Qed.

Lemma assert_over_leaves_get_predicate self s f :
  get_predicate (assert_over_leaves O self s f) = get_predicate self.
Proof.
  unfold get_predicate, model_pregraph, model_postgraph, model_action,
    interpretation_of, getattr. simpl.
  rewrite !lookup_insert_ne by discriminate. reflexivity.
Qed.

(** X12.  [check_sat] and [get_model] write the attributes [solver], [_status]
    and [_asserted_yet] and no other, whatever state the object is in and
    whether or not they raise.  The class, the Variables, the label, the
    model and the interpretation stay, and with them the formula the
    predicate compiles to. *)
Theorem evaluator_methods_frame self :
  (forall name, evaluator_attribute name = false ->
     dict (check_sat O self).2 !! name = dict self !! name /\
     dict (get_model O self).2 !! name = dict self !! name) /\
  class (check_sat O self).2 = class self /\
  class (get_model O self).2 = class self /\
  get_predicate (check_sat O self).2 = get_predicate self /\
  get_predicate (get_model O self).2 = get_predicate self.
Proof.
  destruct (check_sat_cases self) as [Hc|(s & v & f & _ & _ & _ & Hc)];
    destruct (get_model_cases self) as [Hm|(s' & v' & f' & _ & _ & _ & Hm)];
    rewrite Hc, Hm; repeat split;
    auto using assert_over_leaves_frame, assert_over_leaves_get_predicate.
Qed.

(** ** Flag, status and solver agree *)

(** X13.  Every constructed object is consistent -- not asserted, no status --
    and [check_sat] and [get_model] keep an object consistent, whether
    they return or raise: once the flag is up, the status is the answer
    of the solver's last check. *)
Theorem consistency_is_invariant :
  (forall c args self, new c args = Ok self -> consistent self) /\
  (forall self, consistent self ->
     consistent (check_sat O self).2 /\ consistent (get_model O self).2).
Proof.
  assert (Hleaves : forall self s f, consistent (assert_over_leaves O self s f)).
  { intros self s f. right.
    exists (checked O s f), (decide_sat O (assertions s ++ [f])).
    simpl. repeat split.
    - apply lookup_insert_eq.
    - rewrite lookup_insert_ne by discriminate. apply lookup_insert_eq.
    - rewrite !lookup_insert_ne by discriminate. apply lookup_insert_eq. }
  split.
  - intros c args self H. apply new_inv in H as (m & s & _ & _ & _ & _ & Hd).
    left. repeat split; try (rewrite Hd by discriminate; reflexivity).
    exists s. rewrite Hd by discriminate; reflexivity.
  - intros self Hself. split.
    + destruct (check_sat_cases self) as [Hc|(s & v & f & _ & _ & _ & Hc)];
        rewrite Hc; [exact Hself | apply Hleaves].
    + destruct (get_model_cases self) as [Hm|(s & v & f & _ & _ & _ & Hm)];
        rewrite Hm; [exact Hself | apply Hleaves].
Qed.

(** ** The session only grows *)

(** X14.  Neither method ever takes an assertion back or checks twice: from
    any state with a solver, the session afterwards is the one before,
    or the one before with one formula appended and one more check. *)
Theorem session_only_grows self s :
  dict self !! "solver" = Some (VSolver s) ->
  (exists s', dict (check_sat O self).2 !! "solver" = Some (VSolver s') /\
     ((assertions s' = assertions s /\ checks s' = checks s) \/
      exists f, assertions s' = (assertions s ++ [f])%list /\ checks s' = S (checks s))) /\
  (exists s', dict (get_model O self).2 !! "solver" = Some (VSolver s') /\
     ((assertions s' = assertions s /\ checks s' = checks s) \/
      exists f, assertions s' = (assertions s ++ [f])%list /\ checks s' = S (checks s))).
Proof.
  intros Hs.
  assert (Hleaves : forall s0 f, dict self !! "solver" = Some (VSolver s0) ->
            exists s', dict (assert_over_leaves O self s0 f) !! "solver"
                       = Some (VSolver s') /\
              ((assertions s' = assertions s /\ checks s' = checks s) \/
               exists f, assertions s' = (assertions s ++ [f])%list /\
                         checks s' = S (checks s))).
  { intros s0 f Hs0. rewrite Hs in Hs0. injection Hs0 as <-.
    exists (checked O s f). split.
    - simpl. rewrite !lookup_insert_ne by discriminate. apply lookup_insert_eq.
    - right. exists f. split; reflexivity. }
  split.
  - destruct (check_sat_cases self) as [Hc|(s0 & v & f & Hs0 & _ & _ & Hc)];
      rewrite Hc; [exists s; auto | apply Hleaves, Hs0].
  - destruct (get_model_cases self) as [Hm|(s0 & v & f & Hs0 & _ & _ & Hm)];
      rewrite Hm; [exists s; auto | apply Hleaves, Hs0].
Qed.

End Evaluator_behaviour.

(** * Further properties of the combinators *)

Section Combinator_behaviour.

Import Z3 New_engine.

(** ** What the constructors accept and keep *)

Lemma ensure_all_iff args ps :
  ensure_all args = Ok ps <-> args = PPred <$> ps.
Proof.
  revert ps. induction args as [|v args IH]; intros ps; simpl.
  - split.
    + intros [= <-]. reflexivity.
    + destruct ps; [reflexivity | discriminate].
  - destruct v; simpl; try (split; [discriminate | destruct ps; discriminate]).
    destruct (ensure_all args) as [qs|e] eqn:E; simpl.
    + split.
      * intros [= <-]. simpl. f_equal. apply IH. reflexivity.
      * destruct ps as [|q ps]; [discriminate|]. simpl. intros [= -> H].
        apply IH in H. injection H as ->. reflexivity.
    + split; [discriminate|].
      destruct ps as [|q ps]; [discriminate|]. simpl. intros [= -> H].
      apply IH in H. discriminate.
Qed.

(** X15.  And, Or and Not return exactly when every argument is a Predicate,
    and the node then holds the arguments as given: all of them, in
    order, none for an empty call. *)
Theorem connective_constructors_succeed_iff args v p :
  (And_init args = Ok p <-> exists ps, args = PPred <$> ps /\ p = And ps) /\
  (Or_init args = Ok p <-> exists ps, args = PPred <$> ps /\ p = Or ps) /\
  (Not_init v = Ok p <-> exists q, v = PPred q /\ p = Not q).
Proof.
  split; [|split].
  - unfold And_init. split.
    + destruct (ensure_all args) as [ps|e] eqn:E; simpl; [|discriminate].
      intros [= <-]. exists ps. split; [apply ensure_all_iff, E | reflexivity].
    + intros (ps & Hargs & ->). apply ensure_all_iff in Hargs. rewrite Hargs.
      reflexivity.
  - unfold Or_init. split.
    + destruct (ensure_all args) as [ps|e] eqn:E; simpl; [|discriminate].
      intros [= <-]. exists ps. split; [apply ensure_all_iff, E | reflexivity].
    + intros (ps & Hargs & ->). apply ensure_all_iff in Hargs. rewrite Hargs.
      reflexivity.
  - unfold Not_init. split.
    + destruct v; simpl; try discriminate. intros [= <-]. eauto.
    + intros (q & -> & ->). reflexivity.
Qed.

Lemma ensure_all_first_offender ps thing rest e :
  _ensure_predicate thing = Raise e ->
  ensure_all ((PPred <$> ps) ++ thing :: rest) = Raise e.
Proof.
  intros He. induction ps as [|q ps IH]; simpl.
  - rewrite He. reflexivity.
  - unfold fmap in IH. rewrite IH. reflexivity.
Qed.

(** X16.  And and Or check their arguments from the left and stop at the
    first that is no Predicate: what they raise is the ValueError that
    [_ensure_predicate] raises for that argument, and what comes after
    it plays no part. *)
Theorem validation_stops_at_first_offender ps thing rest :
  (forall p, thing <> PPred p) ->
  exists msg,
    _ensure_predicate thing = Raise (ValueError msg) /\
    And_init ((PPred <$> ps) ++ thing :: rest) = Raise (ValueError msg) /\
    Or_init ((PPred <$> ps) ++ thing :: rest) = Raise (ValueError msg) /\
    And_init ((PPred <$> ps) ++ thing :: rest) = And_init [thing] /\
    Or_init ((PPred <$> ps) ++ thing :: rest) = Or_init [thing].
Proof.
  intros Hthing.
  assert (He : exists msg, _ensure_predicate thing = Raise (ValueError msg)).
  { destruct thing; try (eexists; reflexivity). destruct (Hthing p eq_refl). }
  destruct He as [msg He]. exists msg.
  pose proof (ensure_all_first_offender ps thing rest _ He) as H.
  unfold And_init, Or_init. rewrite H. cbn [ensure_all]. rewrite He.
  repeat split.
Qed.

(** ** How failures travel *)

Lemma each_first_failure (F : Predicate -> M world pyval) ps1 q ps2 w e w' :
  Forall (fun p => exists f, F p w = (Ok f, w)) ps1 ->
  F q w = (Raise e, w') ->
  (fix each (l : list Predicate) : M world (list pyval) :=
     match l with
     | [] => mret []
     | q :: l => f ← F q; fs ← each l; mret (f :: fs)
     end) (ps1 ++ q :: ps2)%list w = (Raise e, w').
Proof.
  intros Hps Hq. induction Hps as [|p ps1 [f Hp] _ IH].
  - simpl. unfold mbind, M_bind. rewrite Hq. reflexivity.
  - simpl. unfold mbind, M_bind in *. rewrite Hp.
    simpl in IH. rewrite IH. reflexivity.
Qed.

(** X17.  When the compilation of a sub-predicate raises, And, Or and Not
    raise the same exception, in the state the failing compilation left;
    the sub-predicates to its right are not compiled.  (The ones to its
    left are taken to be trees of truth values and connectives.) *)
Theorem connectives_pass_on_the_first_failure ps1 q ps2 a b c w e w' :
  Forall (fun p => boolean_tree p = true) ps1 ->
  _assert q [a; b; c] w = (Raise e, w') ->
  _assert (And (ps1 ++ q :: ps2)) [a; b; c] w = (Raise e, w') /\
  _assert (Or (ps1 ++ q :: ps2)) [a; b; c] w = (Raise e, w') /\
  _assert (Not q) [a; b; c] w = (Raise e, w').
Proof.
  intros Hps Hq.
  assert (Hleft : Forall (fun p => exists f, _assert p [a; b; c] w = (Ok f, w)) ps1).
  { rewrite Forall_forall in Hps |- *. intros p Hp.
    destruct (boolean_tree_compiles p (Hps p Hp) a b c w) as (f & Hf & _).
    eauto. }
  pose proof (each_first_failure (fun p => _assert p [a; b; c])
                ps1 q ps2 w e w' Hleft Hq) as Hloop.
  split; [|split].
  - simpl. simpl in Hloop. unfold mbind at 1, M_bind at 1. rewrite Hloop.
    reflexivity.
  - simpl. simpl in Hloop. unfold mbind at 1, M_bind at 1. rewrite Hloop.
    reflexivity.
  - simpl. unfold mbind, M_bind. rewrite Hq. reflexivity.
Qed.

(** ** The graph combinators *)

(** X18.  PregraphHas and PostgraphHas over a Predicate of this module never
    compile.  They call the structure's [_assert] with the graph alone,
    and every [_assert] here takes three arguments: the call raises
    TypeError when the rule is a z3 expression of sort Rule, and the
    accessor raises before that otherwise.  The state is not touched. *)
Theorem graph_combinators_over_predicates_raise rule q a b c w :
  (exists e, _assert (PregraphHas rule (PPred q)) [a; b; c] w = (Raise e, w)) /\
  (exists e, _assert (PostgraphHas rule (PPred q)) [a; b; c] w = (Raise e, w)) /\
  (forall r, rule = PExpr r -> sort_of r = Rule ->
     _assert (PregraphHas rule (PPred q)) [a; b; c] w = (Raise arity_error, w) /\
     _assert (PostgraphHas rule (PPred q)) [a; b; c] w = (Raise arity_error, w)).
Proof.
  split; [|split].
  - simpl. unfold mbind, M_bind, lift.
    destruct (accessor_call Rule_pregraph rule); [|eauto].
    rewrite _assert_one_argument. eauto.
  - simpl. unfold mbind, M_bind, lift.
    destruct (accessor_call Rule_postgraph rule); [|eauto].
    rewrite _assert_one_argument. eauto.
  - intros r -> Hr. simpl. unfold mbind, M_bind, lift, accessor_call, apply.
    simpl. rewrite Hr. simpl. rewrite !_assert_one_argument. split; reflexivity.
Qed.

(** X19.  A structure that is no Predicate has no [_assert] among the values
    at hand: compilation raises AttributeError, again with the state
    untouched; the constructor had accepted it. *)
Theorem graph_combinators_over_other_values_raise rule structure a b c w :
  (forall p, structure <> PPred p) ->
  PregraphHas_init rule structure = Ok (PregraphHas rule structure) /\
  _assert (PregraphHas rule structure) [a; b; c] w
    = (Raise (AttributeError "_assert"), w) /\
  _assert (PostgraphHas rule structure) [a; b; c] w
    = (Raise (AttributeError "_assert"), w).
Proof.
  intros H. split; [reflexivity|].
  destruct structure; try (split; reflexivity). destruct (H p eq_refl).
Qed.

(** ** ModelHasRule and what it is given *)

(** X20.  ModelHasRule accepts a value that cannot be called, and the error
    comes at compilation: TypeError, after the new rule was allocated and
    stored in the node. *)
Theorem ModelHasRule_with_uncallable_function id rule_function mf a b w :
  callable rule_function = false ->
  domain mf = [Rule] ->
  (ModelHasRule_init rule_function w).1 = Ok (ModelHasRule (next_id w) rule_function) /\
  _assert (ModelHasRule id rule_function) [PFunc mf; a; b] w
    = (Raise (TypeError "object is not callable"), after_new_rule id w).
Proof.
  intros Hc Hdom. split; [reflexivity|].
  simpl.
  unfold mbind, M_bind, new_rule, set_rule_variable, get_rule_variable, py_call,
    lift, after_new_rule.
  repeat (simpl; rewrite ?lookup_insert_eq).
  unfold apply. rewrite Hdom. simpl.
  destruct rule_function; try discriminate; reflexivity.
Qed.

(** X21.  When the rule function returns something that is no Predicate,
    compilation raises AttributeError for the missing [_assert]; when the
    function itself raises, that exception comes out. *)
Theorem ModelHasRule_with_ill_typed_function id f mf a b w :
  domain mf = [Rule] ->
  let r := FreshConst (rule_counter w) Rule in
  (forall v w', f r (after_new_rule id w) = (Ok v, w') ->
     (forall p, v <> PPred p) ->
     _assert (ModelHasRule id (PLambda f)) [PFunc mf; a; b] w
       = (Raise (AttributeError "_assert"), w')) /\
  (forall e w', f r (after_new_rule id w) = (Raise e, w') ->
     _assert (ModelHasRule id (PLambda f)) [PFunc mf; a; b] w = (Raise e, w')).
Proof.
  intros Hdom r. subst r.
  rewrite (ModelHasRule_assert_unfold id f mf a b w Hdom).
  split.
  - intros v w' -> Hv. destruct v; try reflexivity. destruct (Hv p eq_refl).
  - intros e w' ->. reflexivity.
Qed.

End Combinator_behaviour.

(** * Runs of the further properties *)

Section Behaviour_runs.

Import Z3.

Lemma z3_accessor_get_varname_iff_witness :
  L_to_z3.z3_accessor L_to_z3.get_varname (L_to_z3.VExpr (L_to_z3.variable 5)) = Ok 5.
Proof.
  apply (proj2 (z3_accessor_get_varname_iff (L_to_z3.VExpr (L_to_z3.variable 5)) 5)).
  exists (L_to_z3.variable 5), []. repeat split.
Defined.

Lemma ensure_variable_accepts_iff_witness :
  L_to_z3.ensure_variable (L_to_z3.VExpr (L_to_z3.variable 5)) = Ok tt.
Proof.
  apply (proj2 (proj1 (ensure_variable_accepts_iff
                         (L_to_z3.VExpr (L_to_z3.variable 5))))).
  exists (L_to_z3.variable 5). split; reflexivity.
Defined.

Lemma failed_compilation_changes_nothing_witness :
  let self := L_to_z3.initialized_object L_to_z3.Add (L_to_z3.model_with []) new_solver in
  L_to_z3.check_sat ground_oracle self
  = (Raise (NotImplementedError "Implement get_predicate in subclasses."), self).
Proof.
  exact (proj1 (failed_compilation_changes_nothing ground_oracle
                  (L_to_z3.initialized_object L_to_z3.Add (L_to_z3.model_with [])
                     new_solver)
                  new_solver _ eq_refl eq_refl eq_refl)).
Defined.

Lemma unimplemented_predicates_raise_witness :
  exists self,
    L_to_z3.new L_to_z3.Rem [L_to_z3.VModel (L_to_z3.model_with [])] = Ok self /\
    L_to_z3.check_sat ground_oracle self =
      (Raise (NotImplementedError "Implement get_predicate in subclasses."), self).
Proof.
  destruct (unimplemented_predicates_raise ground_oracle L_to_z3.Rem
              (L_to_z3.model_with []) new_solver
              (or_intror (or_intror eq_refl)) eq_refl) as (self & H1 & H2 & _).
  exists self. auto.
Defined.

Lemma Top_and_Bottom_status_witness :
  exists self,
    L_to_z3.new L_to_z3.Bottom [L_to_z3.VModel (L_to_z3.model_with [])] = Ok self /\
    (L_to_z3.check_sat ground_oracle self).1 = Ok (L_to_z3.VStatus unsat).
Proof.
  exact (proj2 (Top_and_Bottom_status ground_oracle (L_to_z3.model_with [])
                  new_solver ground_oracle_propositional eq_refl)).
Defined.

Lemma Equal_status_witness :
  exists self,
    L_to_z3.new L_to_z3.Equal
      [L_to_z3.VExpr (L_to_z3.variable 1); L_to_z3.VExpr (L_to_z3.variable 2);
       L_to_z3.VModel (L_to_z3.model_with [])] = Ok self /\
    (L_to_z3.check_sat ground_oracle self).1 = Ok (L_to_z3.VStatus unsat).
Proof.
  destruct (Equal_status ground_oracle 1 2 (L_to_z3.model_with []) new_solver
              ground_oracle_propositional eq_refl)
    as (self & swapped & H1 & _ & H3 & _).
  exists self. split; [exact H1 | exact H3].
Defined.

Lemma Equal_on_childless_argument_witness :
  exists self,
    L_to_z3.new L_to_z3.Equal
      [L_to_z3.VExpr (L_to_z3.variable 1);
       L_to_z3.VExpr (Const "y" L_to_z3.Variable_);
       L_to_z3.VModel (L_to_z3.model_with [])] = Ok self /\
    L_to_z3.get_predicate self = Raise (IndexError "list index out of range").
Proof.
  apply (Equal_on_childless_argument
           (L_to_z3.VExpr (L_to_z3.variable 1))
           (L_to_z3.VExpr (Const "y" L_to_z3.Variable_))
           (L_to_z3.model_with []) new_solver eq_refl eq_refl eq_refl).
  right. split.
  - exists 1. reflexivity.
  - exists (Const "y" L_to_z3.Variable_). split; reflexivity.
Defined.

Lemma get_model_then_check_sat_witness :
  let self := L_to_z3.initialized_object L_to_z3.Bottom (L_to_z3.model_with [])
                new_solver in
  (L_to_z3.get_model ground_oracle self).1 = Raise model_not_available /\
  (L_to_z3.check_sat ground_oracle (L_to_z3.get_model ground_oracle self).2).1
  = Ok (L_to_z3.VStatus unsat).
Proof.
  split; [reflexivity|].
  rewrite (proj1 (proj2 (get_model_then_check_sat ground_oracle
                           (L_to_z3.initialized_object L_to_z3.Bottom
                              (L_to_z3.model_with []) new_solver)
                           new_solver (L_to_z3.VBool false) (BoolVal false)
                           eq_refl eq_refl eq_refl eq_refl))).
  reflexivity.
Defined.

Lemma evaluator_methods_frame_witness :
  let self := L_to_z3.initialized_object L_to_z3.Top (L_to_z3.model_with []) new_solver in
  L_to_z3.dict (L_to_z3.check_sat ground_oracle self).2 !! "graphactionpair"
  = L_to_z3.dict self !! "graphactionpair".
Proof.
  exact (proj1 (proj1 (evaluator_methods_frame ground_oracle
                         (L_to_z3.initialized_object L_to_z3.Top
                            (L_to_z3.model_with []) new_solver))
                  "graphactionpair" eq_refl)).
Defined.

Lemma consistency_is_invariant_witness :
  L_to_z3.consistent
    (L_to_z3.check_sat ground_oracle
       (L_to_z3.initialized_object L_to_z3.Top (L_to_z3.model_with []) new_solver)).2.
Proof.
  apply (proj2 (consistency_is_invariant ground_oracle)).
  apply (proj1 (consistency_is_invariant ground_oracle) L_to_z3.Top
           [L_to_z3.VModel (L_to_z3.model_with [])]).
  reflexivity.
Defined.

Lemma connective_constructors_succeed_iff_witness :
  New_engine.And_init [New_engine.PPred New_engine.Top; New_engine.PPred New_engine.Bottom]
  = Ok (New_engine.And [New_engine.Top; New_engine.Bottom]).
Proof.
  apply (proj2 (proj1 (connective_constructors_succeed_iff
                         [New_engine.PPred New_engine.Top;
                          New_engine.PPred New_engine.Bottom]
                         New_engine.PNone
                         (New_engine.And [New_engine.Top; New_engine.Bottom])))).
  exists [New_engine.Top; New_engine.Bottom]. split; reflexivity.
Defined.

Lemma validation_stops_at_first_offender_witness :
  New_engine.And_init
    ((New_engine.PPred <$> [New_engine.Top])
       ++ New_engine.PInt 5 :: [New_engine.PNone])
  = New_engine.And_init [New_engine.PInt 5].
Proof.
  destruct (validation_stops_at_first_offender [New_engine.Top]
              (New_engine.PInt 5) [New_engine.PNone] ltac:(discriminate))
    as (msg & _ & _ & _ & H & _).
  exact H.
Defined.

Lemma connectives_pass_on_the_first_failure_witness :
  New_engine._assert
    (New_engine.And ([New_engine.Top] ++ New_engine.Base :: [New_engine.Bottom]))
    [New_engine.model_function; New_engine.PNone; New_engine.PNone]
    New_engine.empty_world
  = (Raise (NotImplementedError "Implement _assert in subclasses."),
     New_engine.empty_world).
Proof.
  apply (proj1 (connectives_pass_on_the_first_failure
                  [New_engine.Top] New_engine.Base [New_engine.Bottom]
                  New_engine.model_function New_engine.PNone New_engine.PNone
                  New_engine.empty_world _ _
                  ltac:(repeat constructor) eq_refl)).
Defined.

Lemma graph_combinators_over_predicates_raise_witness :
  New_engine._assert
    (New_engine.PregraphHas (New_engine.PExpr (FreshConst 0 New_engine.Rule))
       (New_engine.PPred New_engine.Top))
    [New_engine.model_function; New_engine.PNone; New_engine.PNone]
    New_engine.empty_world
  = (Raise New_engine.arity_error, New_engine.empty_world).
Proof.
  exact (proj1 (proj2 (proj2 (graph_combinators_over_predicates_raise
                  (New_engine.PExpr (FreshConst 0 New_engine.Rule)) New_engine.Top
                  New_engine.model_function New_engine.PNone New_engine.PNone
                  New_engine.empty_world))
                 (FreshConst 0 New_engine.Rule) eq_refl eq_refl)).
Defined.

Lemma graph_combinators_over_other_values_raise_witness :
  New_engine._assert
    (New_engine.PregraphHas New_engine.PNone (New_engine.PInt 5))
    [New_engine.model_function; New_engine.PNone; New_engine.PNone]
    New_engine.empty_world
  = (Raise (AttributeError "_assert"), New_engine.empty_world).
Proof.
  exact (proj1 (proj2 (graph_combinators_over_other_values_raise
                  New_engine.PNone (New_engine.PInt 5)
                  New_engine.model_function New_engine.PNone New_engine.PNone
                  New_engine.empty_world ltac:(discriminate)))).
Defined.

Lemma ModelHasRule_with_uncallable_function_witness :
  New_engine._assert (New_engine.ModelHasRule 0 (New_engine.PInt 5))
    [New_engine.model_function; New_engine.PNone; New_engine.PNone]
    New_engine.empty_world
  = (Raise (TypeError "object is not callable"),
     New_engine.after_new_rule 0 New_engine.empty_world).
Proof.
  exact (proj2 (ModelHasRule_with_uncallable_function 0 (New_engine.PInt 5)
                  (Function "model" [New_engine.Rule] BoolSort)
                  New_engine.PNone New_engine.PNone New_engine.empty_world
                  eq_refl eq_refl)).
Defined.

Lemma ModelHasRule_with_ill_typed_function_witness :
  New_engine._assert
    (New_engine.ModelHasRule 0
       (New_engine.PLambda (fun _ w => (Ok New_engine.PNone, w))))
    [New_engine.model_function; New_engine.PNone; New_engine.PNone]
    New_engine.empty_world
  = (Raise (AttributeError "_assert"),
     New_engine.after_new_rule 0 New_engine.empty_world).
Proof.
  apply (proj1 (ModelHasRule_with_ill_typed_function 0
                  (fun _ w => (Ok New_engine.PNone, w))
                  (Function "model" [New_engine.Rule] BoolSort)
                  New_engine.PNone New_engine.PNone New_engine.empty_world
                  eq_refl) New_engine.PNone).
  - reflexivity.
  - discriminate.
Defined.

Lemma session_only_grows_witness :
  exists s',
    L_to_z3.dict
      (L_to_z3.check_sat ground_oracle
         (L_to_z3.initialized_object L_to_z3.Top (L_to_z3.model_with []) new_solver)).2
      !! "solver" = Some (L_to_z3.VSolver s') /\
    ((assertions s' = assertions new_solver /\ checks s' = checks new_solver) \/
     exists f, assertions s' = (assertions new_solver ++ [f])%list /\
               checks s' = S (checks new_solver)).
Proof.
  exact (proj1 (session_only_grows ground_oracle
                  (L_to_z3.initialized_object L_to_z3.Top (L_to_z3.model_with [])
                     new_solver)
                  new_solver eq_refl)).
Defined.

End Behaviour_runs.

(** * The claims on memoization and on equality, at the inputs that fail *)

Section Failing_inputs.

Import Z3 L_to_z3.

(** Against C3 as stated: Add is a predicate on which the first
    [check_sat] returns no status.  It raises, asserts nothing, and the
    evaluator is as unasserted as before. *)
Lemma check_sat_returns_no_status :
  exists self,
    new Add [VModel (model_with [])] = Ok self /\
    check_sat ground_oracle self =
      (Raise (NotImplementedError "Implement get_predicate in subclasses."), self) /\
    dict self !! "_asserted_yet" = Some (VBool false) /\
    dict self !! "solver" = Some (VSolver new_solver).
Proof. eexists. repeat split. Qed.

(** C8.  Equal is not sat on every Variable: on the Variables that its
    docstring declares, constants of sort Variable, the constructor
    returns and [check_sat] raises IndexError, for Equal(x,x) as for
    Equal(x,y), on every model and with every decision procedure.
    [get_predicate] reads the tag with [z3_accessor], which indexes the
    children of its argument, and a declared constant has none. *)
Theorem Equal_of_declared_constants_raises O x_name y_name m s :
  initialize m new_solver = Ok s ->
  exists self,
    new Equal [VExpr (Const x_name Variable_); VExpr (Const y_name Variable_);
               VModel m] = Ok self /\
    check_sat O self = (Raise (IndexError "list index out of range"), self).
Proof.
  intros Hi.
  exists (setattr "y" (VExpr (Const y_name Variable_))
            (setattr "x" (VExpr (Const x_name Variable_))
               (initialized_object Equal m s))).
  split.
  - unfold new, binary_init. rewrite (AtomicPredicate_init_ok _ _ _ Hi).
    reflexivity.
  - apply (check_sat_compile_fails O _ s).
    + simpl. rewrite !lookup_insert_ne by discriminate. apply lookup_insert_eq.
    + simpl. rewrite !lookup_insert_ne by discriminate. reflexivity.
    + unfold get_predicate, getattr. simpl.
      repeat (rewrite lookup_insert_eq || rewrite lookup_insert_ne by discriminate;
              simpl).
      reflexivity.
Qed.

Lemma Equal_of_declared_constants_raises_witness :
  exists self,
    new Equal [VExpr (Const "x" Variable_); VExpr (Const "x" Variable_);
               VModel (model_with [])] = Ok self /\
    check_sat ground_oracle self
    = (Raise (IndexError "list index out of range"), self).
Proof.
  exact (Equal_of_declared_constants_raises ground_oracle "x" "x"
           (model_with []) new_solver eq_refl).
Defined.

End Failing_inputs.
